(** * mealplan_to_html: a weekly meal plan in Markdown turned into an HTML page

    Shallow embedding of [mealplan_to_html.py] and the properties of its
    parsing and rendering pipeline.

    Python's [str] is a sequence of Unicode code points; it is modelled as a
    list of code points, each an [N].  Functions that can raise return a
    [result]. *)

From Stdlib Require Import ZArith NArith Lia Ascii String.
From stdpp Require Import base numbers option list gmap.

Local Open Scope N_scope.

(** ** Strings as lists of code points *)

Abbreviation str := (list N).

(** Literals are written as UTF-8 text; [lit] decodes the bytes to code
    points.  A backquote in a literal stands for the double quote (no literal
    of the program contains a backquote). *)
Fixpoint utf8_decode (bs : list N) : list N :=
  match bs with
  | [] => []
  | b0 :: t0 =>
    if b0 <? 0x80 then b0 :: utf8_decode t0
    else match t0 with
    | [] => []
    | b1 :: t1 =>
      if b0 <? 0xE0 then ((b0 - 0xC0) * 64 + (b1 - 0x80)) :: utf8_decode t1
      else match t1 with
      | [] => []
      | b2 :: t2 =>
        if b0 <? 0xF0
        then ((b0 - 0xE0) * 4096 + (b1 - 0x80) * 64 + (b2 - 0x80)) :: utf8_decode t2
        else match t2 with
        | [] => []
        | b3 :: t3 =>
          ((b0 - 0xF0) * 262144 + (b1 - 0x80) * 4096 + (b2 - 0x80) * 64 + (b3 - 0x80))
            :: utf8_decode t3
        end
      end
    end
  end.

Definition unquote (c : N) : N := if c =? 96 then 34 else c.

Definition lit (s : string) : list N :=
  unquote <$> utf8_decode (N_of_ascii <$> list_ascii_of_string s).

(** [str.isspace] on one code point: what [str.strip()] removes. *)
Definition is_space (c : N) : bool :=
  ((9 <=? c) && (c <=? 13)) || ((28 <=? c) && (c <=? 32))
  || (c =? 0x85) || (c =? 0xA0) || (c =? 0x1680)
  || ((0x2000 <=? c) && (c <=? 0x200A))
  || (c =? 0x2028) || (c =? 0x2029) || (c =? 0x202F) || (c =? 0x205F)
  || (c =? 0x3000).

Fixpoint lstrip (s : list N) : list N :=
  match s with
  | c :: s' => if is_space c then lstrip s' else s
  | [] => []
  end.

Definition rstrip (s : list N) : list N := reverse (lstrip (reverse s)).

(** [s.strip()] *)
Definition strip (s : list N) : list N := rstrip (lstrip s).

(** [s.startswith(p)] *)
Fixpoint startswith (p s : list N) : bool :=
  match p, s with
  | [], _ => true
  | a :: p', b :: s' => (a =? b) && startswith p' s'
  | _ :: _, [] => false
  end.

(** [d in s] for strings: [d] occurs in [s] as a substring. *)
Fixpoint str_in (d s : list N) : bool :=
  startswith d s ||
  match s with
  | [] => false
  | _ :: s' => str_in d s'
  end.

(** [s.split(d, 1)] for a non-empty [d]: the parts around the first
    occurrence of [d], or [s] alone when [d] does not occur. *)
Fixpoint str_split1 (d s : list N) : list (list N) :=
  if startswith d s then [[]; drop (length d) s]
  else match s with
  | [] => [[]]
  | c :: s' =>
    match str_split1 d s' with
    | hd :: tl => (c :: hd) :: tl
    | [] => []
    end
  end.

(** [sep.join(parts)] *)
Fixpoint join (sep : list N) (parts : list (list N)) : list N :=
  match parts with
  | [] => []
  | [p] => p
  | p :: ps => p ++ sep ++ join sep ps
  end.

(** Line boundaries of [str.splitlines()], apart from the pair CR LF. *)
Definition is_linebreak (c : N) : bool :=
  ((10 <=? c) && (c <=? 13)) || ((28 <=? c) && (c <=? 30))
  || (c =? 0x85) || (c =? 0x2028) || (c =? 0x2029).

(** [cur] is the line being read, reversed. *)
Fixpoint splitlines_from (cur s : list N) : list (list N) :=
  match s with
  | [] => match cur with [] => [] | _ => [reverse cur] end
  | c :: s' =>
    if is_linebreak c then
      reverse cur ::
        match s' with
        | c' :: s'' =>
          if (c =? 13) && (c' =? 10) then splitlines_from [] s''
          else splitlines_from [] s'
        | [] => splitlines_from [] s'
        end
    else splitlines_from (c :: cur) s'
  end.

(** [s.splitlines()] *)
Definition splitlines (s : list N) : list (list N) := splitlines_from [] s.

(** Entities of [html.escape(s)] (with its default [quote=True]). *)
Definition s_amp : list N := Eval vm_compute in lit "&amp;".
Definition s_lt : list N := Eval vm_compute in lit "&lt;".
Definition s_gt : list N := Eval vm_compute in lit "&gt;".
Definition s_quot : list N := Eval vm_compute in lit "&quot;".
Definition s_apos : list N := Eval vm_compute in lit "&#x27;".

Definition escape_char (c : N) : list N :=
  if c =? 38 then s_amp
  else if c =? 60 then s_lt
  else if c =? 62 then s_gt
  else if c =? 34 then s_quot
  else if c =? 39 then s_apos
  else [c].

(** [html.escape(s)] *)
Definition html_escape (s : list N) : list N := s ≫= escape_char.

(** ** Inline Renderer

    [re.finditer(r"\*\*(.+?)\*\*", text)]: the matcher below is the
    backtracking search of this pattern.  A match object carries the
    positions [m.start()], [m.end()] and the text of group 1. *)

Record re_match := { m_start : nat; m_end : nat; m_group1 : list N }.

Definition s_stars : list N := Eval vm_compute in lit "**".

(** [(.+?)\*\*] at [s]: the lazy group takes one character that is not a
    newline, then tries the closing stars, and takes one more character each
    time they do not follow.  Returns group 1. *)
Fixpoint lazy_group_then_close (s : list N) : option (list N) :=
  match s with
  | [] => None
  | c :: s' =>
    if c =? 10 then None
    else if startswith s_stars s' then Some [c]
    else match lazy_group_then_close s' with
         | Some g => Some (c :: g)
         | None => None
         end
  end.

(** The whole pattern anchored at the start of [s]. *)
Definition bold_match_at (s : list N) : option (list N) :=
  if startswith s_stars s then lazy_group_then_close (drop 2 s) else None.

(** Leftmost match in [s], which is the text from position [pos] on. *)
Fixpoint bold_search (pos : nat) (s : list N) : option re_match :=
  match bold_match_at s with
  | Some g =>
    Some {| m_start := pos; m_end := (pos + 2 + length g + 2)%nat; m_group1 := g |}
  | None =>
    match s with
    | [] => None
    | _ :: s' => bold_search (S pos) s'
    end
  end.

(** Successive matches, each search starting where the last match ended. *)
Fixpoint finditer_from (fuel pos : nat) (text : list N) : list re_match :=
  match fuel with
  | O => []
  | S fuel' =>
    match bold_search pos (drop pos text) with
    | Some m => m :: finditer_from fuel' (m_end m) text
    | None => []
    end
  end.

Definition bold_finditer (text : list N) : list re_match :=
  finditer_from (S (length text)) 0 text.

Definition s_strong_open : list N := Eval vm_compute in lit "<strong>".
Definition s_strong_close : list N := Eval vm_compute in lit "</strong>".

(** [_replace(match)] *)
Definition replace_match (m : re_match) : list N :=
  s_strong_open ++ html_escape (m_group1 m) ++ s_strong_close.

(** [text[i:j]] *)
Definition slice (i j : nat) (text : list N) : list N := take (j - i) (drop i text).

(** One turn of the [for match in ...] loop on [(result, last_end)]. *)
Definition render_step (text : list N) (acc : list (list N) * nat) (m : re_match)
  : list (list N) * nat :=
  (acc.1 ++ [html_escape (slice acc.2 (m_start m) text); replace_match m], m_end m).

Definition render_inline (text : list N) : list N :=
  let acc := foldl (render_step text) ([], 0%nat) (bold_finditer text) in
  concat (acc.1 ++ [html_escape (drop acc.2 text)]).

(** ** Block Converter *)

Definition s_item : list N := Eval vm_compute in lit "- ".
Definition s_ul_open : list N := Eval vm_compute in lit "<ul>".
Definition s_ul_close : list N := Eval vm_compute in lit "</ul>".
Definition s_li_open : list N := Eval vm_compute in lit "<li>".
Definition s_li_close : list N := Eval vm_compute in lit "</li>".
Definition s_p_open : list N := Eval vm_compute in lit "<p>".
Definition s_p_close : list N := Eval vm_compute in lit "</p>".
Definition s_newline : list N := [10].

(** [not s] for a string. *)
Definition is_empty (s : list N) : bool :=
  match s with [] => true | _ => false end.

(** The inner [while]: the items read from the front of the remaining lines,
    and the lines left at the [break] (or at the end). *)
Fixpoint collect_items (ls : list (list N)) : list (list N) * list (list N) :=
  match ls with
  | [] => ([], [])
  | l :: rest =>
    let candidate := strip l in
    if negb (startswith s_item candidate) then ([], ls)
    else
      let r := collect_items rest in
      (render_inline (strip (drop 2 candidate)) :: r.1, r.2)
  end.

Definition ul_block (items : list (list N)) : list N :=
  s_ul_open ++ concat ((λ item, s_li_open ++ item ++ s_li_close) <$> items) ++ s_ul_close.

Definition p_block (stripped : list N) : list N :=
  s_p_open ++ render_inline stripped ++ s_p_close.

(** The outer [while] on the lines from index [i] on; [html_parts] in order. *)
Fixpoint convert_loop (fuel : nat) (ls : list (list N)) : list (list N) :=
  match fuel with
  | O => []
  | S fuel' =>
    match ls with
    | [] => []
    | l :: rest =>
      let stripped := strip l in
      if is_empty stripped then convert_loop fuel' rest
      else if startswith s_item stripped then
        let r := collect_items ls in
        ul_block r.1 :: convert_loop fuel' r.2
      else p_block stripped :: convert_loop fuel' rest
    end
  end.

Definition html_parts (ls : list (list N)) : list (list N) :=
  convert_loop (length ls) ls.

Definition convert_lines_to_html (ls : list (list N)) : list N :=
  join s_newline (html_parts ls).

(** ** Heading Splitter *)

(** The delimiters as the source file has them: its first and third
    literals are the three code points U+00E2 U+20AC U+201C and U+00E2
    U+20AC U+201D between spaces. *)
Definition delimiters : list (list N) :=
  [ [32; 0xE2; 0x20AC; 0x201C; 32];
    [32; 45; 32];
    [32; 0xE2; 0x20AC; 0x201D; 32];
    [32; 45; 45; 32] ].

Fixpoint split_with (ds : list (list N)) (raw_title : list N) : list N * list N :=
  match ds with
  | [] => ([], strip raw_title)
  | delimiter :: ds' =>
    if str_in delimiter raw_title then
      match str_split1 delimiter raw_title with
      | [day; meal] => (strip day, strip meal)
      | _ => ([], [])
      end
    else split_with ds' raw_title
  end.

Definition split_day_and_title (raw_title : list N) : list N * list N :=
  split_with delimiters raw_title.

(** ** Document Parser *)

Record section := { raw_title : list N; lines : list (list N) }.

Record parse_state := {
  title : list N;
  intro_lines : list (list N);
  sections : list section;
  current_section : option section
}.

Definition s_h1 : list N := Eval vm_compute in lit "# ".
Definition s_h2 : list N := Eval vm_compute in lit "## ".
Definition s_rule : list N := Eval vm_compute in lit "---".

Definition str_eqb (a b : list N) : bool := bool_decide (a = b).

(** [sections.append(current_section)] under [if current_section:]. *)
Definition close_section (st : parse_state) : list section :=
  match current_section st with
  | Some s => sections st ++ [s]
  | None => sections st
  end.

(** The body of the [for raw_line in ...] loop. *)
Definition parse_step (st : parse_state) (raw_line : list N) : parse_state :=
  let stripped := strip raw_line in
  if startswith s_h1 stripped then
    if is_empty (title st)
    then {| title := strip (drop 2 stripped); intro_lines := intro_lines st;
            sections := sections st; current_section := current_section st |}
    else st
  else if startswith s_h2 stripped then
    {| title := title st; intro_lines := intro_lines st;
       sections := close_section st;
       current_section := Some {| raw_title := strip (drop 3 stripped); lines := [] |} |}
  else if str_eqb stripped s_rule then st
  else
    match current_section st with
    | None =>
      {| title := title st; intro_lines := intro_lines st ++ [raw_line];
         sections := sections st; current_section := None |}
    | Some s =>
      {| title := title st; intro_lines := intro_lines st;
         sections := sections st;
         current_section := Some {| raw_title := raw_title s; lines := lines s ++ [raw_line] |} |}
    end.

Definition parse_init : parse_state :=
  {| title := []; intro_lines := []; sections := []; current_section := None |}.

Definition parse_lines (ls : list (list N)) : list N * list (list N) * list section :=
  let st := foldl parse_step parse_init ls in
  (title st, intro_lines st, close_section st).

Definition parse_weekly_plan (markdown_text : list N)
  : list N * list (list N) * list section :=
  parse_lines (splitlines markdown_text).

(** ** Exceptions *)

Inductive exn :=
| KeyError (key : list N)
| ValueError
| SystemExit_usage
| SystemExit_invalid_iso.

Inductive result (A : Type) :=
| Ok (a : A)
| Raise (e : exn).
Arguments Ok {A} a.
Arguments Raise {A} e.

Definition rbind {A B} (r : result A) (k : A -> result B) : result B :=
  match r with
  | Ok a => k a
  | Raise e => Raise e
  end.

Notation "'let*' x := r 'in' k" := (rbind r (fun x => k))
  (at level 10, x name, r at level 100, k at level 200).

(** ** Weekday Resolver *)

Definition s_monday : list N := Eval vm_compute in lit "monday".
Definition s_tuesday : list N := Eval vm_compute in lit "tuesday".
Definition s_wednesday : list N := Eval vm_compute in lit "wednesday".
Definition s_thursday : list N := Eval vm_compute in lit "thursday".
Definition s_friday : list N := Eval vm_compute in lit "friday".
Definition s_saturday : list N := Eval vm_compute in lit "saturday".
Definition s_sunday : list N := Eval vm_compute in lit "sunday".

Definition DAY_NAME_TO_ISO : gmap (list N) Z :=
  <[s_monday := 1%Z]> (<[s_tuesday := 2%Z]> (<[s_wednesday := 3%Z]>
  (<[s_thursday := 4%Z]> (<[s_friday := 5%Z]> (<[s_saturday := 6%Z]>
  (<[s_sunday := 7%Z]> ∅)))))).

(** The alternatives of [DAY_NAME_PATTERN], in the order of the pattern. *)
Definition day_alternatives : list (list N) :=
  Eval vm_compute in
  [lit "Monday"; lit "Tuesday"; lit "Wednesday"; lit "Thursday"; lit "Friday";
   lit "Saturday"; lit "Sunday"].

(** Lower case as the regex engine takes it under [re.IGNORECASE]: the simple
    lower-case mapping.  The code points written out are all those it sends
    to an ASCII letter; no other code point is sent to an ASCII letter, to
    U+0131 or to U+017F. *)
Definition sre_lower (c : N) : N :=
  if (65 <=? c) && (c <=? 90) then c + 32
  else if c =? 0x130 then 105
  else if c =? 0x212A then 107
  else c.

(** A literal [p] of the pattern against the character [c] under
    [re.IGNORECASE]: equal lower case, or the two lower-case letters share
    their upper case (i and U+0131, s and U+017F). *)
Definition ci_eq (p c : N) : bool :=
  let lo := sre_lower p in
  let lc := sre_lower c in
  (lc =? lo) || ((lo =? 105) && (lc =? 0x131)) || ((lo =? 115) && (lc =? 0x17F)).

(** The literal [p] matched at the start of [s]: the text matched and the
    rest. *)
Fixpoint ci_prefix (p s : list N) : option (list N * list N) :=
  match p, s with
  | [], _ => Some ([], s)
  | a :: p', c :: s' =>
    if ci_eq a c then
      match ci_prefix p' s' with
      | Some (g, r) => Some (c :: g, r)
      | None => None
      end
    else None
  | _ :: _, [] => None
  end.

(** [str.lower()] on one character, for the characters a match of
    [DAY_NAME_PATTERN] can hold: the ASCII letters, U+0130 (whose lower case
    is i followed by U+0307), U+0131 and U+017F. *)
Definition lower_char (c : N) : list N :=
  if (65 <=? c) && (c <=? 90) then [c + 32]
  else if c =? 0x130 then [105; 0x307]
  else [c].

Definition str_lower (s : list N) : list N := s ≫= lower_char.

Definition ascii_isalnum (c : N) : bool :=
  ((48 <=? c) && (c <=? 57)) || ((65 <=? c) && (c <=? 90)) || ((97 <=? c) && (c <=? 122)).

Section WithUnicodeData.

(** [str.isalnum] on the code points from U+0080 on.  The Unicode character
    database behind it is not part of the program. *)
Variable uni_isalnum : N -> bool.

(** The class [\w] of a [str] pattern. *)
Definition is_word (c : N) : bool :=
  if c <? 128 then ascii_isalnum c || (c =? 95) else uni_isalnum c.

Definition is_word_opt (c : option N) : bool :=
  match c with
  | Some c => is_word c
  | None => false
  end.

(** [\b] between the characters [before] and [after] (none at an end of the
    text). *)
Definition word_boundary (before after : option N) : bool :=
  negb (eqb (is_word_opt before) (is_word_opt after)).

(** The group and the closing [\b] at [s], the alternatives tried in order. *)
Fixpoint alternatives_then_boundary (names : list (list N)) (s : list N)
  : option (list N) :=
  match names with
  | [] => None
  | name :: names' =>
    match ci_prefix name s with
    | Some (g, r) =>
      if word_boundary (last g) (head r) then Some g
      else alternatives_then_boundary names' s
    | None => alternatives_then_boundary names' s
    end
  end.

(** The whole pattern at [s], [before] being the character in front. *)
Definition day_match_at (before : option N) (s : list N) : option (list N) :=
  if word_boundary before (head s) then alternatives_then_boundary day_alternatives s
  else None.

(** [DAY_NAME_PATTERN.search]: the leftmost match; returns group 1. *)
Fixpoint day_search (before : option N) (s : list N) : option (list N) :=
  match day_match_at before s with
  | Some g => Some g
  | None =>
    match s with
    | [] => None
    | c :: s' => day_search (Some c) s'
    end
  end.

Definition extract_weekday (day_label : list N) : result (option Z) :=
  match day_search None day_label with
  | None => Ok None
  | Some g =>
    match DAY_NAME_TO_ISO !! str_lower g with
    | Some n => Ok (Some n)
    | None => Raise (KeyError (str_lower g))
    end
  end.

End WithUnicodeData.

(** ** Calendar dates

    [datetime.date] and [date.fromisocalendar], after the reference
    implementation of the [datetime] module. *)

Record date := { year : Z; month : Z; day : Z }.

Section Calendar.
Local Open Scope Z_scope.

Definition MINYEAR : Z := 1.
Definition MAXYEAR : Z := 9999.

Definition _DAYS_IN_MONTH : list Z := [-1; 31; 28; 31; 30; 31; 30; 31; 31; 30; 31; 30; 31].
Definition _DAYS_BEFORE_MONTH : list Z :=
  [-1; 0; 31; 59; 90; 120; 151; 181; 212; 243; 273; 304; 334].

(** [table[i]] for an index in range. *)
Definition index (table : list Z) (i : Z) : Z := default 0 (table !! Z.to_nat i).

Definition _is_leap (y : Z) : bool :=
  (y mod 4 =? 0) && (negb (y mod 100 =? 0) || (y mod 400 =? 0)).

Definition _days_before_year (yr : Z) : Z :=
  let y := yr - 1 in
  y * 365 + y / 4 - y / 100 + y / 400.

Definition _days_in_month (yr m : Z) : Z :=
  if (m =? 2) && _is_leap yr then 29 else index _DAYS_IN_MONTH m.

Definition _days_before_month (yr m : Z) : Z :=
  index _DAYS_BEFORE_MONTH m + (if (2 <? m) && _is_leap yr then 1 else 0).

Definition _ymd2ord (yr m d : Z) : Z :=
  _days_before_year yr + _days_before_month yr m + d.

Definition _DI400Y : Z := 146097.
Definition _DI100Y : Z := 36524.
Definition _DI4Y : Z := 1461.

Definition _ord2ymd (n0 : Z) : Z * Z * Z :=
  let n := n0 - 1 in
  let n400 := n / _DI400Y in
  let n := n mod _DI400Y in
  let yr := n400 * 400 + 1 in
  let n100 := n / _DI100Y in
  let n := n mod _DI100Y in
  let n4 := n / _DI4Y in
  let n := n mod _DI4Y in
  let n1 := n / 365 in
  let n := n mod 365 in
  let yr := yr + n100 * 100 + n4 * 4 + n1 in
  if (n1 =? 4) || (n100 =? 4) then (yr - 1, 12, 31)
  else
    let leapyear := (n1 =? 3) && (negb (n4 =? 24) || (n100 =? 3)) in
    let m := Z.shiftr (n + 50) 5 in
    let preceding := index _DAYS_BEFORE_MONTH m + (if (2 <? m) && leapyear then 1 else 0) in
    if n <? preceding then
      let m := m - 1 in
      let preceding :=
        preceding - (index _DAYS_IN_MONTH m + (if (m =? 2) && leapyear then 1 else 0)) in
      (yr, m, n - preceding + 1)
    else (yr, m, n - preceding + 1).

Definition _isoweek1monday (yr : Z) : Z :=
  let firstday := _ymd2ord yr 1 1 in
  let firstweekday := (firstday + 6) mod 7 in
  let week1monday := firstday - firstweekday in
  if 3 <? firstweekday then week1monday + 7 else week1monday.

(** [date(year, month, day)]: the constructor checks its fields. *)
Definition new_date (yr m d : Z) : result date :=
  if negb ((MINYEAR <=? yr) && (yr <=? MAXYEAR)) then Raise ValueError
  else if negb ((1 <=? m) && (m <=? 12)) then Raise ValueError
  else if negb ((1 <=? d) && (d <=? _days_in_month yr m)) then Raise ValueError
  else Ok {| year := yr; month := m; day := d |}.

(** [date.fromisocalendar(year, week, day)] *)
Definition fromisocalendar (yr week wd : Z) : result date :=
  if negb ((MINYEAR <=? yr) && (yr <=? MAXYEAR)) then Raise ValueError
  else if negb ((0 <? week) && (week <? 53))
          && negb ((week =? 53)
                   && (let first_weekday := _ymd2ord yr 1 1 mod 7 in
                       (first_weekday =? 4) || ((first_weekday =? 3) && _is_leap yr)))
  then Raise ValueError
  else if negb ((0 <? wd) && (wd <? 8)) then Raise ValueError
  else
    let day_offset := (week - 1) * 7 + (wd - 1) in
    let day_1 := _isoweek1monday yr in
    let '(y, m, d) := _ord2ymd (day_1 + day_offset) in
    new_date y m d.

End Calendar.

(** Decimal digits of a number, as [str(n)] writes them. *)
Fixpoint digits_from (fuel : nat) (n : N) (acc : list N) : list N :=
  match fuel with
  | O => acc
  | S fuel' =>
    let acc' := (48 + n mod 10) :: acc in
    if n <? 10 then acc' else digits_from fuel' (n / 10) acc'
  end.

Definition str_of_int (z : Z) : list N :=
  let n := Z.to_N (Z.abs z) in
  (if (z <? 0)%Z then [45] else []) ++ digits_from (S (N.size_nat n)) n [].

(** [value.strftime('%b')], the month names of the C locale. *)
Definition month_abbr : list (list N) :=
  Eval vm_compute in
  [lit "Jan"; lit "Feb"; lit "Mar"; lit "Apr"; lit "May"; lit "Jun";
   lit "Jul"; lit "Aug"; lit "Sep"; lit "Oct"; lit "Nov"; lit "Dec"].

Definition strftime_b (value : date) : list N :=
  default [] (month_abbr !! Z.to_nat (month value - 1)).

Definition format_display_date (value : date) : list N :=
  strftime_b value ++ [32] ++ str_of_int (day value) ++ [44; 32] ++ str_of_int (year value).

(** ** Document Assembler *)

Definition s_default_title : list N := Eval vm_compute in lit "Weekly Meal Plan".
Definition s_intro_open : list N := Eval vm_compute in lit "<div class=`intro`>".
Definition s_div_close : list N := Eval vm_compute in lit "</div>".
Definition s_date_open : list N := Eval vm_compute in lit "<span class=`meal-date`>".
Definition s_name_open : list N := Eval vm_compute in lit "<span class=`day-name`>".
Definition s_span_close : list N := Eval vm_compute in lit "</span>".
Definition s_day_open : list N := Eval vm_compute in lit "<p class=`meal-day`>".

Definition card_1 : list N := Eval vm_compute in lit "
            ".
Definition card_section_open : list N := Eval vm_compute in lit "<section class=`meal-card`>".
Definition card_2 : list N := Eval vm_compute in lit "
                ".
Definition card_3 : list N := Eval vm_compute in lit "
                <h2>".
Definition card_4 : list N := Eval vm_compute in lit "</h2>
                <div class=`meal-body`>
                    ".
Definition card_5 : list N := Eval vm_compute in lit "
                </div>
            </section>
            ".

Definition page_head : list N := Eval vm_compute in lit "<!DOCTYPE html>
<html lang=`en`>
<head>
    <meta charset=`UTF-8` />
    <meta name=`viewport` content=`width=device-width, initial-scale=1.0` />
    <title>".

Definition page_mid1 : list N := Eval vm_compute in lit "</title>
    <style>
        :root {
            color-scheme: light;
            --page-bg: #f8fafc;
            --page-gradient: linear-gradient(135deg, #f8fafc 0%, #f1f5f9 50%, #e2e8f0 100%);
            --card-bg: #ffffff;
            --card-border: #e2e8f0;
            --text-primary: #0f172a;
            --text-muted: #475569;
            --accent: #ec7c30;
            --accent-soft: #ffe6cf;
        }

        * {
            box-sizing: border-box;
        }

        body {
            margin: 0;
            font-family: `Inter`, `Segoe UI`, -apple-system, BlinkMacSystemFont, `Helvetica Neue`, sans-serif;
            background: var(--page-gradient);
            min-height: 100vh;
            color: var(--text-primary);
            padding: 2.5rem 1.5rem 4rem;
        }

        .page {
            max-width: 1100px;
            margin: 0 auto;
        }

        header {
            text-align: center;
            margin-bottom: 2.5rem;
        }

        header h1 {
            margin: 0;
            font-size: clamp(2rem, 5vw, 3.5rem);
        }

        header .intro {
            margin-top: 0.75rem;
            font-size: 1rem;
            color: var(--text-muted);
            max-width: 640px;
            margin-left: auto;
            margin-right: auto;
        }

        main {
            display: grid;
            gap: 1.5rem;
            grid-template-columns: repeat(auto-fit, minmax(270px, 1fr));
        }

        .meal-card {
            background: var(--card-bg);
            border-radius: 1.25rem;
            padding: 1.5rem;
            border: 1px solid var(--card-border);
            box-shadow: 0 10px 20px rgba(15, 23, 42, 0.08);
        }

        .meal-day {
            display: inline-flex;
            align-items: baseline;
            gap: 0.4rem;
            flex-wrap: wrap;
            margin: 0 0 0.35rem;
        }

        .meal-day .day-name {
            text-transform: uppercase;
            font-size: 0.8rem;
            letter-spacing: 0.08em;
            font-weight: 600;
            color: var(--accent);
        }

        .meal-day .meal-date {
            font-size: 0.75rem;
            color: var(--text-muted);
            letter-spacing: normal;
            text-transform: none;
            font-weight: 500;
            display: inline-flex;
            align-items: baseline;
            gap: 0.15rem;
        }

        .meal-day .meal-date::before {
            content: `â€¢`;
            color: var(--card-border);
        }

        .meal-card h2 {
            margin: 0 0 1rem;
            font-size: 1.35rem;
            color: var(--text-primary);
        }

        .meal-body p {
            margin: 0.35rem 0;
            color: var(--text-muted);
            line-height: 1.5;
        }

        .meal-body ul {
            list-style: disc;
            padding-left: 1.2rem;
            margin: 0.35rem 0 0.8rem;
            color: var(--text-muted);
        }

        .meal-body li {
            margin: 0.2rem 0;
        }

        .meal-body strong {
            background: var(--accent-soft);
            color: var(--text-primary);
            padding: 0.1rem 0.35rem;
            border-radius: 0.35rem;
        }

        @media print {
            @page {
                margin: 0.5in;
            }
            body {
                background: #ffffff;
                padding: 0;
                color: #000;
            }
            main {
                display: grid;
                grid-template-columns: repeat(2, minmax(0, 1fr));
                gap: 0.5in;
            }
            .meal-card {
                box-shadow: none;
                page-break-inside: avoid;
                break-inside: avoid;
                margin: 0;
            }
        }
    </style>
</head>
<body>
    <div class=`page`>
        <header>
            <h1>".

Definition page_mid2 : list N := Eval vm_compute in lit "</h1>
            ".

Definition page_mid3 : list N := Eval vm_compute in lit "
        </header>
        <main>
            ".

Definition page_tail : list N := Eval vm_compute in lit "
        </main>
    </div>
</body>
</html>
".

(** [bool(d)] for a dict and [bool(n)] for an int. *)
Definition dict_truthy (d : gmap Z date) : bool := negb (bool_decide (d = ∅)).
Definition int_truthy (n : Z) : bool := negb (n =? 0)%Z.

(** [iso_dates.get(weekday_number) if iso_dates and weekday_number else None] *)
Definition lookup_meal_date (iso_dates : option (gmap Z date)) (weekday_number : option Z)
  : option date :=
  match iso_dates, weekday_number with
  | Some d, Some n => if dict_truthy d && int_truthy n then d !! n else None
  | _, _ => None
  end.

Definition date_html (meal_date : option date) : list N :=
  match meal_date with
  | Some d => s_date_open ++ html_escape (format_display_date d) ++ s_span_close
  | None => []
  end.

Definition day_name_html (day_label : list N) : list N :=
  if is_empty day_label then [] else s_name_open ++ html_escape day_label ++ s_span_close.

Definition day_html (day_label : list N) (meal_date : option date) : list N :=
  if is_empty day_label then []
  else s_day_open ++ day_name_html day_label ++ date_html meal_date ++ s_p_close.

Definition card_markup (day_line meal_title content_html : list N) : list N :=
  card_1 ++ card_section_open ++ card_2 ++ day_line ++ card_3 ++ html_escape meal_title
  ++ card_4 ++ content_html ++ card_5.

Definition page_markup (page_title intro_section cards_markup : list N) : list N :=
  page_head ++ html_escape page_title ++ page_mid1 ++ html_escape page_title ++ page_mid2
  ++ intro_section ++ page_mid3 ++ cards_markup ++ page_tail.

Section Assembler.

Variable uni_isalnum : N -> bool.

(** The body of the [for section in sections] loop: the card appended. *)
Definition render_card (iso_dates : option (gmap Z date)) (s : section) : result (list N) :=
  let dm := split_day_and_title (raw_title s) in
  let day_label := dm.1 in
  let meal_title := dm.2 in
  let content_html := convert_lines_to_html (lines s) in
  let* weekday_number :=
    (if is_empty day_label then Ok None else extract_weekday uni_isalnum day_label) in
  let meal_date := lookup_meal_date iso_dates weekday_number in
  Ok (card_markup (day_html day_label meal_date) meal_title content_html).

Fixpoint render_cards (iso_dates : option (gmap Z date)) (ss : list section)
  : result (list (list N)) :=
  match ss with
  | [] => Ok []
  | s :: ss' =>
    let* card := render_card iso_dates s in
    let* cards := render_cards iso_dates ss' in
    Ok (card :: cards)
  end.

Definition build_html_document (markdown_text : list N) (iso_dates : option (gmap Z date))
  : result (list N) :=
  let '(title, intro_lines, sections) := parse_weekly_plan markdown_text in
  let page_title := if is_empty title then s_default_title else title in
  let intro_html :=
    match intro_lines with [] => [] | _ => convert_lines_to_html intro_lines end in
  let intro_section :=
    if is_empty intro_html then [] else s_intro_open ++ intro_html ++ s_div_close in
  let* cards_html := render_cards iso_dates sections in
  let cards_markup := join s_newline cards_html in
  Ok (page_markup page_title intro_section cards_markup).

(** The dict comprehension over [range(1, 8)]. *)
Fixpoint iso_week_dates (yr week : Z) (weekdays : list Z) (acc : gmap Z date)
  : result (gmap Z date) :=
  match weekdays with
  | [] => Ok acc
  | weekday :: rest =>
    let* d := fromisocalendar yr week weekday in
    iso_week_dates yr week rest (<[weekday := d]> acc)
  end.

(** The [try] block of [main]: [ValueError] becomes [SystemExit]. *)
Definition main_iso_dates (iso_week yr : option Z) : result (option (gmap Z date)) :=
  match iso_week, yr with
  | Some w, Some y =>
    match iso_week_dates y w (seqZ 1 7) ∅ with
    | Ok d => Ok (Some d)
    | Raise ValueError => Raise SystemExit_invalid_iso
    | Raise e => Raise e
    end
  | _, _ => Ok None
  end.

(** [parse_args] rejects one of the two options given without the other. *)
Definition parse_args (iso_week yr : option Z) : result unit :=
  if xorb (bool_decide (iso_week = None)) (bool_decide (yr = None))
  then Raise SystemExit_usage else Ok ().

(** [main]: the text read from the input file to the text written to the
    output file. *)
Definition main (markdown_text : list N) (iso_week yr : option Z) : result (list N) :=
  let* _ := parse_args iso_week yr in
  let* iso_dates := main_iso_dates iso_week yr in
  build_html_document markdown_text iso_dates.

End Assembler.

(** ** Vocabulary of the specification

    Predicates and reference definitions in the words of the specification,
    to be compared with the functions above. *)

Definition is_blank (l : list N) : bool := is_empty (strip l).
Definition is_item (l : list N) : bool := startswith s_item (strip l).
Definition is_h1 (l : list N) : bool := startswith s_h1 (strip l).
Definition is_h2 (l : list N) : bool := startswith s_h2 (strip l).
Definition is_rule (l : list N) : bool := str_eqb (strip l) s_rule.

(** The item a list line becomes. *)
Definition item_html (l : list N) : list N := render_inline (strip (drop 2 (strip l))).

(** The parser state but for the title. *)
Definition body (st : parse_state) : list (list N) * list section * option section :=
  (intro_lines st, sections st, current_section st).

(** The remainder of a heading line after its marker, trimmed. *)
Definition h1_text (l : list N) : list N := strip (drop 2 (strip l)).
Definition h2_text (l : list N) : list N := strip (drop 3 (strip l)).

(** The lines in front of the next level-2 heading. *)
Fixpoint until_h2 (ls : list (list N)) : list (list N) :=
  match ls with
  | [] => []
  | l :: rest => if is_h2 l then [] else l :: until_h2 rest
  end.

(** The sections of a document, [keep] telling which lines between two
    headings belong to the section. *)
Fixpoint sections_keeping (keep : list N -> bool) (ls : list (list N)) : list section :=
  match ls with
  | [] => []
  | l :: rest =>
    if is_h2 l
    then {| raw_title := h2_text l; lines := filter (λ x, keep x = true) (until_h2 rest) |}
           :: sections_keeping keep rest
    else sections_keeping keep rest
  end.

(** Every line but the horizontal rules. *)
Definition not_rule (l : list N) : bool := negb (is_rule l).
(** Every line but the horizontal rules and the title lines. *)
Definition body_line (l : list N) : bool := negb (is_rule l) && negb (is_h1 l).

(** The calendar in the words of the [datetime] module: the ordinal of a
    date ([date.toordinal]), its ISO weekday ([date.isoweekday]), and the
    fields a date may hold. *)
Definition toordinal (dt : date) : Z := _ymd2ord (year dt) (month dt) (day dt).

Definition isoweekday_of_ordinal (n : Z) : Z :=
  let r := (n mod 7)%Z in if (r =? 0)%Z then 7%Z else r.

Definition valid_date (dt : date) : Prop :=
  (MINYEAR <= year dt <= MAXYEAR)%Z /\ (1 <= month dt <= 12)%Z
  /\ (1 <= day dt <= _days_in_month (year dt) (month dt))%Z.

(** The number of ISO weeks of a year: the weeks from the Monday of its
    week 1 to the Monday of week 1 of the next year. *)
Definition iso_weeks_in_year (yr : Z) : Z :=
  ((_isoweek1monday (yr + 1) - _isoweek1monday yr) / 7)%Z.

Definition iso_week_in_range (yr week : Z) : Prop :=
  (1 <= week <= iso_weeks_in_year yr)%Z.

(** A year has 53 ISO weeks when it starts on a Thursday, or on a Wednesday
    and is a leap year; 52 otherwise. *)
Definition long_year (yr : Z) : bool :=
  let first_weekday := (_ymd2ord yr 1 1 mod 7)%Z in
  ((first_weekday =? 4) || ((first_weekday =? 3) && _is_leap yr))%Z.

(** The day of ISO year [yr], week [week] and weekday [wd] by the week-date
    rule: so many whole weeks and days after the Monday of week 1. *)
Definition iso_ordinal (yr week wd : Z) : Z :=
  (_isoweek1monday yr + ((week - 1) * 7 + (wd - 1)))%Z.

(** [date.fromordinal(n)] *)
Definition date_of_ordinal (n : Z) : date :=
  {| year := (_ord2ymd n).1.1; month := (_ord2ymd n).1.2; day := (_ord2ymd n).2 |}.

(** [date.max.toordinal()], the ordinal of 9999-12-31. *)
Definition max_ordinal : Z := 3652059.

(** The month and the day of the month of the day numbered [n] (from 0) in
    its year: the end of [_ord2ymd]. *)
Definition month_day (leapyear : bool) (n : Z) : Z * Z :=
  let m := Z.shiftr (n + 50) 5 in
  let preceding :=
    (index _DAYS_BEFORE_MONTH m + (if (2 <? m)%Z && leapyear then 1 else 0))%Z in
  if (n <? preceding)%Z then
    let m := (m - 1)%Z in
    let preceding :=
      (preceding - (index _DAYS_IN_MONTH m + (if (m =? 2)%Z && leapyear then 1 else 0)))%Z in
    (m, (n - preceding + 1)%Z)
  else (m, (n - preceding + 1)%Z).

(** What [month_day] has to satisfy, as a test on one day number. *)
Definition month_day_check (leapyear : bool) (n : Z) : bool :=
  let md := month_day leapyear n in
  ((1 <=? md.1) && (md.1 <=? 12) && (1 <=? md.2)
   && (md.2 <=? (if (md.1 =? 2) && leapyear then 29 else index _DAYS_IN_MONTH md.1))
   && (index _DAYS_BEFORE_MONTH md.1 + (if (2 <? md.1) && leapyear then 1 else 0) + md.2
       =? n + 1))%Z.

(** ** Counting a tag in the markup *)

(** The number of places of [s] at which [pat] occurs. *)
Fixpoint count_sub (pat s : list N) : nat :=
  ((if startswith pat s then 1 else 0)
   + match s with
     | [] => 0
     | _ :: s' => count_sub pat s'
     end)%nat.

(** Whether [pat] occurs at the start of [s ++ t], when [s] alone decides
    it: [pat] ends within [s], or differs from it. *)
Fixpoint decided (pat s : list N) : option bool :=
  match pat, s with
  | [], _ => Some true
  | _ :: _, [] => None
  | a :: pat', c :: s' => if a =? c then decided pat' s' else Some false
  end.

(** The number of places of the literal [s] at which [pat] occurs, when
    every place of [s] decides it. *)
Fixpoint scan (pat s : list N) : option nat :=
  match s with
  | [] => Some 0%nat
  | _ :: s' =>
    match decided pat s, scan pat s' with
    | Some b, Some k => Some (if b then S k else k)
    | _, _ => None
    end
  end.

(** [s] adds [k] occurrences of [pat] to whatever follows it. *)
Definition weight (pat : list N) (k : nat) (s : list N) : Prop :=
  forall t, count_sub pat (s ++ t) = (k + count_sub pat t)%nat.

(** The literals of the program's markup, but for the opening tags of the
    card, of the day line, of the day name and of the date. *)
Definition plain_literals : list (list N) :=
  [s_strong_open; s_strong_close; s_ul_open; s_ul_close; s_li_open; s_li_close;
   s_p_open; s_p_close; s_newline; s_intro_open; s_div_close; s_span_close;
   card_1; card_2; card_3; card_4; card_5;
   page_head; page_mid1; page_mid2; page_mid3; page_tail].

Definition marked_tags : list (list N) :=
  [card_section_open; s_day_open; s_name_open; s_date_open].

(** A tag that can be counted: it starts with its only "<", no plain
    literal holds it or a beginning of it at its end, and every place of the
    four marked tags decides it. *)
Definition marker_ok (pat : list N) : bool :=
  match pat with
  | c :: p =>
    (c =? 60) && forallb (λ x, negb (x =? 60)) p
    && forallb (λ l, bool_decide (scan pat l = Some 0%nat)) plain_literals
    && forallb (λ l, bool_decide (is_Some (scan pat l))) marked_tags
  | [] => false
  end.

(** The occurrences of [pat] in the literal [l]. *)
Definition tag_weight (pat l : list N) : nat := default 0%nat (scan pat l).

(** The occurrences of [pat] in the day line of a card. *)
Definition day_weight (pat day_label : list N) (meal_date : option date) : nat :=
  if is_empty day_label then 0%nat
  else (tag_weight pat s_day_open + tag_weight pat s_name_open
        + match meal_date with Some _ => tag_weight pat s_date_open | None => 0 end)%nat.

(** ** The inline renderer in the words of the specification *)

(** A piece of the text: plain text, or the inner text of a bold span. *)
Inductive token :=
| Plain (s : list N)
| Bold (inner : list N).

(** The piece as the input has it, and as the output has it. *)
Definition source (t : token) : list N :=
  match t with
  | Plain s => s
  | Bold inner => s_stars ++ inner ++ s_stars
  end.

Definition emit (t : token) : list N :=
  match t with
  | Plain s => html_escape s
  | Bold inner => s_strong_open ++ html_escape inner ++ s_strong_close
  end.

(** The text of the piece that is shown, before escaping. *)
Definition shown (t : token) : list N :=
  match t with
  | Plain s => s
  | Bold inner => inner
  end.

(** A span at the very start of [s]: two stars, an inner text that is not
    empty and holds no newline, two stars. *)
Definition span_at (s : list N) : Prop :=
  exists inner post, s = s_stars ++ inner ++ s_stars ++ post /\ inner <> [] /\ (10 ∉ inner).

(** The pieces of a text: spans are taken from left to right, each the
    earliest span of what is left, closed by the first two stars that can
    close it, and the search goes on behind the span. *)
Inductive spans : list N -> list token -> Prop :=
| spans_plain text :
    (forall pre s, text = pre ++ s -> ~ span_at s) ->
    spans text [Plain text]
| spans_bold pre inner rest toks :
    inner <> [] -> 10 ∉ inner ->
    (forall k, (0 < k < length inner)%nat ->
       startswith s_stars (drop k (inner ++ s_stars ++ rest)) = false) ->
    (forall p1 p2, pre = p1 ++ p2 -> p2 <> [] ->
       ~ span_at (p2 ++ s_stars ++ inner ++ s_stars ++ rest)) ->
    spans rest toks ->
    spans (pre ++ s_stars ++ inner ++ s_stars ++ rest) (Plain pre :: Bold inner :: toks).

(** The pieces by the matcher of the program, on the text that is left. *)
Fixpoint tokens_of (fuel : nat) (s : list N) : list token :=
  match fuel with
  | O => [Plain s]
  | S fuel' =>
    match bold_search 0 s with
    | None => [Plain s]
    | Some m =>
      Plain (take (m_start m) s) :: Bold (m_group1 m) :: tokens_of fuel' (drop (m_end m) s)
    end
  end.

(** One level of entity decoding, for the five entities of [html.escape];
    [skip] characters of an entity already decoded are passed over. *)
Fixpoint unescape_from (skip : nat) (s : list N) : list N :=
  match s with
  | [] => []
  | c :: s' =>
    match skip with
    | S k => unescape_from k s'
    | O =>
      if startswith s_amp s then 38 :: unescape_from 4 s'
      else if startswith s_lt s then 60 :: unescape_from 3 s'
      else if startswith s_gt s then 62 :: unescape_from 3 s'
      else if startswith s_quot s then 34 :: unescape_from 5 s'
      else if startswith s_apos s then 39 :: unescape_from 5 s'
      else c :: unescape_from 0 s'
    end
  end.

Definition html_unescape (s : list N) : list N := unescape_from 0 s.

(** The five characters [html.escape] replaces. *)
Definition is_special (c : N) : bool :=
  (c =? 38) || (c =? 60) || (c =? 62) || (c =? 34) || (c =? 39).

(** Every "&" of [s] starts one of the five entities. *)
Fixpoint amps_start_entities (s : list N) : bool :=
  match s with
  | [] => true
  | c :: s' =>
    (negb (c =? 38)
     || startswith s_amp s || startswith s_lt s || startswith s_gt s
     || startswith s_quot s || startswith s_apos s)
    && amps_start_entities s'
  end.

(** ** The weekday resolver in the words of the specification *)

(** [g] is the name [name] but for the case of its letters, as
    [re.IGNORECASE] takes it. *)
Definition ci_same (name g : list N) : Prop :=
  Forall2 (λ p c, ci_eq p c = true) name g.

(** The character in front of the text behind [pre], [before] being the
    character in front of [pre]. *)
Definition char_before (before : option N) (pre : list N) : option N :=
  match last pre with
  | Some c => Some c
  | None => before
  end.

(** A weekday name as a whole word: [g], between [pre] and [post], is the
    name [name] of the pattern, with a word boundary on both sides. *)
Definition weekday_at (uni_isalnum : N -> bool) (pre g post name : list N) : Prop :=
  name ∈ day_alternatives /\ ci_same name g
  /\ word_boundary uni_isalnum (last pre) (head (g ++ post)) = true
  /\ word_boundary uni_isalnum (last g) (head post) = true.

(** The three characters beyond ASCII that [re.IGNORECASE] takes for the
    letters i and s. *)
Definition is_odd_letter (c : N) : bool := (c =? 0x130) || (c =? 0x131) || (c =? 0x17F).

(** An ASCII letter other than k, the one ASCII letter with a fourth
    character ([U+212A]) of the same lower case; no weekday name holds it. *)
Definition plain_letter (c : N) : bool :=
  (((65 <=? c) && (c <=? 90)) || ((97 <=? c) && (c <=? 122)))
  && negb (c =? 75) && negb (c =? 107).

(** The ISO number of a name of the pattern: its place in the pattern. *)
Definition iso_number (name : list N) (n : Z) : Prop :=
  day_alternatives !! Z.to_nat (n - 1) = Some name /\ (1 <= n <= 7)%Z.

(** ** The parser and the page in the words of the specification *)

(** A line that is no title line, no level-2 heading and no horizontal
    rule. *)
Definition ordinary_line (l : list N) : bool := body_line l && negb (is_h2 l).

(** The title of the page, read off the lines. *)
Definition page_title_of (ls : list (list N)) : list N :=
  match head (filter (λ l, is_h1 l = true) ls) with
  | Some l => h1_text l
  | None => s_default_title
  end.

(** The intro block of the page, read off the intro lines. *)
Definition intro_block (intro : list (list N)) : list N :=
  if forallb is_blank intro then []
  else s_intro_open ++ convert_lines_to_html intro ++ s_div_close.

Example lit_en_dash : lit "a – `b`" = [97; 32; 0x2013; 32; 34; 98; 34].
Proof. reflexivity. Qed.

Example render_inline_ex :
  render_inline (lit "a **b<** c ** d") = lit "a <strong>b&lt;</strong> c ** d".
Proof. vm_compute. reflexivity. Qed.

Example convert_ex :
  convert_lines_to_html [lit "- Tacos"; lit "- Salsa"; []; lit "Serve with lime."]
  = lit "<ul><li>Tacos</li><li>Salsa</li></ul>
<p>Serve with lime.</p>".
Proof. vm_compute. reflexivity. Qed.

Example split_ex1 :
  split_day_and_title (lit "Monday – Pizza Night") = ([], lit "Monday – Pizza Night").
Proof. vm_compute. reflexivity. Qed.

Example split_ex2 :
  split_day_and_title (lit "Monday - Pizza Night") = (lit "Monday", lit "Pizza Night").
Proof. vm_compute. reflexivity. Qed.

Example parse_ex :
  parse_weekly_plan (lit "# T
intro
## A
# U
x
---
## B") = (lit "T", [lit "intro"], [ {| raw_title := lit "A"; lines := [lit "x"] |};
                                 {| raw_title := lit "B"; lines := [] |} ]).
Proof. vm_compute. reflexivity. Qed.

(** * Properties *)

#[local] Arguments N.eqb : simpl never.
#[local] Arguments N.leb : simpl never.
#[local] Arguments N.ltb : simpl never.

(** ** Strings *)

Lemma startswith_app p r : startswith p (p ++ r) = true.
Proof. induction p as [|a p IH]; simpl; [done|]. by rewrite N.eqb_refl. Qed.

Lemma startswith_spec p s : startswith p s = true <-> exists r, s = p ++ r.
Proof.
  split.
  - revert s. induction p as [|a p IH]; intros s H; simpl in *; [by exists s|].
    destruct s as [|b s]; [done|].
    apply andb_true_iff in H as [Hab Hp]. apply N.eqb_eq in Hab as ->.
    destruct (IH _ Hp) as [r ->]. by exists r.
  - intros [r ->]. apply startswith_app.
Qed.

Lemma lstrip_split s :
  exists pre, s = pre ++ lstrip s /\ Forall (λ c, is_space c = true) pre.
Proof.
  induction s as [|c s IH]; simpl; [by exists []|].
  destruct (is_space c) eqn:Hc.
  - destruct IH as (pre & Hs & Hpre). exists (c :: pre). split.
    + simpl. by rewrite <- Hs.
    + by constructor.
  - by exists [].
Qed.

Lemma lstrip_head s c r : lstrip s = c :: r -> is_space c = false.
Proof.
  induction s as [|a s IH]; simpl; [done|].
  destruct (is_space a) eqn:Ha; [done|]. by intros [= <- <-].
Qed.

Lemma lstrip_nil s : lstrip s = [] <-> Forall (λ c, is_space c = true) s.
Proof.
  induction s as [|a s IH]; simpl; [done|].
  destruct (is_space a) eqn:Ha.
  - rewrite IH. split; [by constructor|by inversion 1].
  - split; [done|]. inversion 1; congruence.
Qed.

Lemma lstrip_unchanged s c r : s = c :: r -> is_space c = false -> lstrip s = s.
Proof. intros -> H. simpl. by rewrite H. Qed.

Lemma rstrip_split s :
  exists post, s = rstrip s ++ post /\ Forall (λ c, is_space c = true) post.
Proof.
  unfold rstrip. destruct (lstrip_split (reverse s)) as (pre & Hs & Hpre).
  exists (reverse pre). split.
  - rewrite <- reverse_app, <- Hs. by rewrite reverse_involutive.
  - by apply Forall_reverse.
Qed.

Lemma rstrip_last s c : last (rstrip s) = Some c -> is_space c = false.
Proof.
  unfold rstrip. rewrite last_reverse.
  destruct (lstrip (reverse s)) as [|a r] eqn:E; [done|].
  intros [= <-]. by eapply lstrip_head.
Qed.

Lemma rstrip_nil s : rstrip s = [] <-> Forall (λ c, is_space c = true) s.
Proof.
  unfold rstrip. split.
  - intros H. apply (f_equal reverse) in H. rewrite reverse_involutive in H.
    apply lstrip_nil in H. apply Forall_reverse in H. by rewrite reverse_involutive in H.
  - intros H. apply Forall_reverse, lstrip_nil in H. by rewrite H.
Qed.

Lemma rstrip_head s c r : s = c :: r -> is_space c = false -> head (rstrip s) = Some c.
Proof.
  intros -> Hc. destruct (rstrip_split (c :: r)) as (post & Hs & Hpost).
  destruct (rstrip (c :: r)) as [|a q] eqn:E.
  - simpl in Hs. subst post. inversion Hpost; congruence.
  - simpl in Hs. by injection Hs as -> _.
Qed.

(** [strip] removes a run of white space at each end, and nothing else. *)
Lemma strip_split s :
  exists pre post, s = pre ++ strip s ++ post
    /\ Forall (λ c, is_space c = true) pre /\ Forall (λ c, is_space c = true) post.
Proof.
  unfold strip. destruct (lstrip_split s) as (pre & Hs & Hpre).
  destruct (rstrip_split (lstrip s)) as (post & Hl & Hpost).
  exists pre, post. split; [|done]. by rewrite <- Hl.
Qed.

Lemma strip_head s c : head (strip s) = Some c -> is_space c = false.
Proof.
  unfold strip. destruct (lstrip s) as [|a r] eqn:E; [done|].
  pose proof (lstrip_head _ _ _ E) as Ha.
  rewrite (rstrip_head (a :: r) a r eq_refl Ha). by intros [= <-].
Qed.

Lemma strip_last s c : last (strip s) = Some c -> is_space c = false.
Proof. apply rstrip_last. Qed.

Lemma strip_nil s : strip s = [] <-> Forall (λ c, is_space c = true) s.
Proof.
  unfold strip. rewrite rstrip_nil. split.
  - intros H. destruct (lstrip_split s) as (pre & Hs & Hpre). rewrite Hs.
    by apply Forall_app.
  - intros H. destruct (lstrip_split s) as (pre & Hs & Hpre). rewrite Hs in H.
    by apply Forall_app in H as [_ ?].
Qed.

(** A trimmed string is left as it is by [strip]. *)
Lemma strip_idemp s : strip (strip s) = strip s.
Proof.
  destruct (strip s) as [|a r] eqn:E; [done|].
  assert (Ha : is_space a = false) by (apply (strip_head s); by rewrite E).
  unfold strip at 1. rewrite (lstrip_unchanged (a :: r) a r eq_refl Ha).
  unfold rstrip.
  destruct (reverse (a :: r)) as [|z q] eqn:Er.
  - apply (f_equal reverse) in Er. by rewrite reverse_involutive in Er.
  - assert (Hz : is_space z = false).
    { apply (strip_last s). rewrite E. rewrite <- (reverse_involutive (a :: r)), Er.
      by rewrite last_reverse. }
    rewrite (lstrip_unchanged (z :: q) z q eq_refl Hz), <- Er.
    apply reverse_involutive.
Qed.

(** ** Document Parser *)

Lemma is_h1_not_h2 l : is_h1 l = true -> is_h2 l = false.
Proof.
  unfold is_h1, is_h2. intros [r Hr]%startswith_spec.
  destruct (startswith s_h2 (strip l)) eqn:E; [|done].
  apply startswith_spec in E as [r' Hr']. rewrite Hr in Hr'. discriminate Hr'.
Qed.

Lemma is_rule_not_heading l : is_rule l = true -> is_h1 l = false /\ is_h2 l = false.
Proof.
  unfold is_rule, is_h1, is_h2, str_eqb. intros H%bool_decide_eq_true. by rewrite H.
Qed.

(** The text of a title line is never empty: the trimmed line ends in a
    character that is not white space, and the marker ends in a space. *)
Lemma h1_text_nonempty l : is_h1 l = true -> h1_text l <> [].
Proof.
  unfold is_h1, h1_text. intros [r Hr]%startswith_spec. rewrite Hr.
  unfold s_h1 in *. cbn [app drop] in *.
  intros Hnil%strip_nil.
  destruct (last (strip l)) as [z|] eqn:Hz.
  - pose proof (strip_last _ _ Hz) as Hsp. rewrite Hr in Hz.
    destruct r as [|c r].
    + injection Hz as <-. discriminate Hsp.
    + rewrite !last_cons_cons in Hz. apply last_Some_elem_of in Hz.
      rewrite Forall_forall in Hnil. specialize (Hnil _ Hz). congruence.
  - apply last_None in Hz. rewrite Hz in Hr. discriminate Hr.
Qed.

Lemma parse_step_h1 st l :
  is_h1 l = true ->
  parse_step st l =
    {| title := if is_empty (title st) then h1_text l else title st;
       intro_lines := intro_lines st; sections := sections st;
       current_section := current_section st |}.
Proof.
  unfold is_h1, parse_step, h1_text. intros ->. by destruct st as [[|] ? ? ?].
Qed.

Lemma parse_step_body st st' l :
  body st = body st' -> body (parse_step st l) = body (parse_step st' l).
Proof.
  destruct st as [t i s c], st' as [t' i' s' c']. unfold body. simpl.
  intros [= -> -> ->]. unfold parse_step, close_section. simpl.
  repeat case_match; done.
Qed.

Lemma parse_step_title st l :
  is_h1 l = false -> title (parse_step st l) = title st.
Proof.
  unfold is_h1, parse_step. intros ->. repeat case_match; done.
Qed.

Lemma fold_title st ls :
  title (foldl parse_step st ls) =
    if is_empty (title st)
    then from_option h1_text [] (head (filter (λ l, is_h1 l = true) ls))
    else title st.
Proof.
  revert st. induction ls as [|l ls IH]; intros st; simpl.
  - by destruct (title st).
  - rewrite IH. destruct (is_h1 l) eqn:Hl.
    + rewrite filter_cons_True by done. simpl.
      rewrite (parse_step_h1 _ _ Hl). simpl.
      destruct (title st) eqn:Ht; simpl.
      * pose proof (h1_text_nonempty _ Hl). by destruct (h1_text l).
      * done.
    + rewrite filter_cons_False by congruence.
      by rewrite (parse_step_title _ _ Hl).
Qed.

Lemma fold_body st st' ls :
  body st = body st' ->
  body (foldl parse_step st ls)
  = body (foldl parse_step st' (filter (λ l, is_h1 l <> true) ls)).
Proof.
  revert st st'. induction ls as [|l ls IH]; intros st st' Hb; simpl; [done|].
  destruct (is_h1 l) eqn:Hl.
  - rewrite filter_cons_False by (intros ?; congruence).
    apply IH. rewrite <- Hb. rewrite (parse_step_h1 _ _ Hl). done.
  - rewrite filter_cons_True by congruence. simpl.
    apply IH. by apply parse_step_body.
Qed.

Lemma close_section_body st st' : body st = body st' -> close_section st = close_section st'.
Proof. unfold body, close_section. by intros [= _ -> ->]. Qed.

Lemma close_fold st ls :
  close_section (foldl parse_step st ls)
  = sections st
    ++ match current_section st with
       | Some s =>
         [ {| raw_title := raw_title s;
              lines := lines s ++ filter (λ x, body_line x = true) (until_h2 ls) |} ]
       | None => []
       end
    ++ sections_keeping body_line ls.
Proof.
  revert st. induction ls as [|l ls IH]; intros st.
  - simpl. unfold close_section. destruct (current_section st) as [[rt lns]|]; simpl.
    + by rewrite !app_nil_r.
    + by rewrite app_nil_r.
  - cbn [foldl]. rewrite IH. clear IH.
    destruct (is_h1 l) eqn:H1.
    { pose proof (is_h1_not_h2 _ H1) as H2.
      rewrite (parse_step_h1 _ _ H1). cbn [sections current_section until_h2 sections_keeping].
      rewrite H2. rewrite filter_cons_False; [done|].
      unfold body_line. rewrite H1. by destruct (is_rule l). }
    destruct (is_h2 l) eqn:H2.
    { unfold parse_step. fold (is_h1 l) (is_h2 l). rewrite H1, H2.
      cbn [sections current_section until_h2 sections_keeping raw_title lines].
      rewrite H2. unfold close_section. rewrite filter_nil.
      destruct (current_section st) as [[rt lns]|]; simpl; rewrite ?app_nil_r.
      - by rewrite <- app_assoc.
      - done. }
    destruct (is_rule l) eqn:H3.
    { unfold parse_step. fold (is_h1 l) (is_h2 l) (is_rule l). rewrite H1, H2, H3.
      cbn [until_h2 sections_keeping]. rewrite H2.
      rewrite filter_cons_False; [done|]. unfold body_line. by rewrite H3. }
    unfold parse_step. fold (is_h1 l) (is_h2 l) (is_rule l). rewrite H1, H2, H3.
    cbn [until_h2 sections_keeping]. rewrite H2.
    rewrite filter_cons_True by (unfold body_line; by rewrite H1, H3).
    destruct (current_section st) as [[rt lns]|]; simpl.
    + by rewrite <- app_assoc.
    + done.
Qed.

(** C3. Only the first line whose trimmed form begins with "# " sets the
    title, to its remainder trimmed; the title lines, the first one and every
    later one, are consumed: the intro lines and the sections are those of
    the document with all of them removed.  In particular, a title line with
    no title line before it gives the title whatever follows it. *)
Theorem first_title_line_wins (markdown_text : list N) :
  let ls := splitlines markdown_text in
  let plain := filter (λ l, is_h1 l <> true) ls in
  let parsed := parse_weekly_plan markdown_text in
  parsed.1.1 = from_option h1_text [] (head (filter (λ l, is_h1 l = true) ls))
  /\ parsed.1.2 = (parse_lines plain).1.2
  /\ parsed.2 = (parse_lines plain).2
  /\ (forall pre first rest,
        ls = pre ++ first :: rest ->
        Forall (λ l, is_h1 l = false) pre ->
        is_h1 first = true ->
        parsed.1.1 = h1_text first).
Proof.
  intros ls plain parsed. subst parsed. unfold parse_weekly_plan. fold ls.
  unfold parse_lines. cbn [fst snd].
  pose proof (fold_body parse_init parse_init ls eq_refl) as Hb. fold plain in Hb.
  assert (Ht : title (foldl parse_step parse_init ls)
               = from_option h1_text [] (head (filter (λ l, is_h1 l = true) ls))).
  { by rewrite fold_title. }
  split; [exact Ht|]. split; [|split].
  - unfold body in Hb. by injection Hb as -> _ _.
  - by apply close_section_body.
  - intros pre first rest Hls Hpre Hfirst. rewrite Ht, Hls.
    rewrite filter_app, filter_cons_True by done.
    replace (filter (λ l, is_h1 l = true) pre) with (@nil (list N)); [done|].
    symmetry. clear -Hpre. induction Hpre as [|x pre Hx _ IH]; [done|].
    rewrite filter_cons_False by congruence. done.
Qed.

Lemma first_title_line_wins_witness :
  (parse_weekly_plan (lit "intro
# First
# Second
## A
# Third
x")).1.1 = lit "First".
Proof.
  pose proof (first_title_line_wins (lit "intro
# First
# Second
## A
# Third
x")) as H. cbv zeta in H. destruct H as (_ & _ & _ & H).
  apply (H [lit "intro"] (lit "# First") [lit "# Second"; lit "## A"; lit "# Third"; lit "x"]).
  - vm_compute. reflexivity.
  - repeat constructor.
  - vm_compute. reflexivity.
Defined.

(** The sections of the parser, read off the lines. *)
Lemma parse_sections (markdown_text : list N) :
  (parse_weekly_plan markdown_text).2
  = sections_keeping body_line (splitlines markdown_text).
Proof. unfold parse_weekly_plan, parse_lines. cbn [snd]. apply close_fold. Qed.

(** C9, as amended.  The sections are those of the headings in input order,
    and the lines of a section are the raw lines between its heading and the
    next level-2 heading or the end of the input, but for the horizontal
    rules and the title lines. *)
Theorem sections_between_headings (markdown_text : list N) :
  (parse_weekly_plan markdown_text).2
  = sections_keeping body_line (splitlines markdown_text).
Proof.
  unfold parse_weekly_plan, parse_lines. cbn [snd].
  by rewrite close_fold.
Qed.

(** C9 as stated fails: a title line between two level-2 headings is a raw
    line that is no horizontal rule, and it is not among the lines of the
    section. *)
Lemma sections_keep_all_but_rules_fails :
  (parse_weekly_plan (lit "## A
# T
x")).2 = [ {| raw_title := lit "A"; lines := [lit "x"] |} ]
  /\ sections_keeping not_rule (splitlines (lit "## A
# T
x")) = [ {| raw_title := lit "A"; lines := [lit "# T"; lit "x"] |} ]
  /\ (parse_weekly_plan (lit "## A
# T
x")).2 <> sections_keeping not_rule (splitlines (lit "## A
# T
x")).
Proof.
  split; [vm_compute; reflexivity|]. split; [vm_compute; reflexivity|].
  vm_compute. intros H. discriminate H.
Qed.

(** ** Block Converter *)

Lemma collect_items_length ls : (length (collect_items ls).2 <= length ls)%nat.
Proof.
  induction ls as [|l ls IH]; cbn [collect_items]; [done|].
  destruct (startswith s_item (strip l)); simpl; lia.
Qed.

Lemma collect_items_item l rest :
  is_item l = true ->
  collect_items (l :: rest) = (item_html l :: (collect_items rest).1, (collect_items rest).2).
Proof. unfold is_item. cbn [collect_items]. by intros ->. Qed.

Lemma collect_items_stop l rest :
  is_item l = false -> collect_items (l :: rest) = ([], l :: rest).
Proof. unfold is_item. cbn [collect_items]. by intros ->. Qed.

(** The inner loop reads the whole run of list lines in front. *)
Lemma collect_items_run xs rest :
  Forall (λ l, is_item l = true) xs ->
  from_option is_item false (head rest) = false ->
  collect_items (xs ++ rest) = (item_html <$> xs, rest).
Proof.
  intros Hxs Hrest. induction Hxs as [|x xs Hx _ IH]; simpl app.
  - destruct rest as [|r rest]; [done|]. by apply collect_items_stop.
  - rewrite (collect_items_item _ _ Hx), IH. done.
Qed.

Lemma convert_loop_fuel f1 f2 ls :
  (length ls <= f1)%nat -> (length ls <= f2)%nat ->
  convert_loop f1 ls = convert_loop f2 ls.
Proof.
  revert f2 ls. induction f1 as [|f1 IH]; intros f2 ls H1 H2.
  - destruct ls; [|simpl in H1; lia]. by destruct f2.
  - destruct f2 as [|f2]; [destruct ls; [done|simpl in H2; lia]|].
    destruct ls as [|l rest]; [done|]. simpl in H1, H2.
    cbn [convert_loop].
    destruct (is_empty (strip l)); [apply IH; lia|].
    destruct (startswith s_item (strip l)) eqn:Hi.
    + f_equal. pose proof (collect_items_length rest) as Hlen.
      assert (is_item l = true) as Hl by done.
      rewrite (collect_items_item _ _ Hl). cbn [snd]. apply IH; lia.
    + f_equal. apply IH; lia.
Qed.

(** The outer loop, freed from its counter. *)
Lemma html_parts_cons l rest :
  html_parts (l :: rest) =
    if is_blank l then html_parts rest
    else if is_item l then
      ul_block (collect_items (l :: rest)).1 :: html_parts (collect_items (l :: rest)).2
    else p_block (strip l) :: html_parts rest.
Proof.
  unfold html_parts at 1. cbn [length convert_loop]. unfold is_blank, is_item.
  destruct (is_empty (strip l)); [done|].
  destruct (startswith s_item (strip l)) eqn:Hi; [|done].
  f_equal. apply convert_loop_fuel; [|done].
  assert (is_item l = true) as Hl by done.
  rewrite (collect_items_item _ _ Hl). cbn [snd]. apply collect_items_length.
Qed.

Lemma is_item_not_blank l : is_item l = true -> is_blank l = false.
Proof.
  unfold is_item, is_blank. intros [r Hr]%startswith_spec. by rewrite Hr.
Qed.

Lemma html_parts_blanks bs ls :
  Forall (λ l, is_blank l = true) bs -> html_parts (bs ++ ls) = html_parts ls.
Proof.
  induction 1 as [|b bs Hb _ IH]; [done|].
  simpl app. by rewrite html_parts_cons, Hb.
Qed.

Lemma html_parts_run xs rest :
  xs <> [] ->
  Forall (λ l, is_item l = true) xs ->
  from_option is_item false (head rest) = false ->
  html_parts (xs ++ rest) = ul_block (item_html <$> xs) :: html_parts rest.
Proof.
  intros Hne Hxs Hrest. destruct xs as [|x xs]; [done|].
  pose proof (Forall_inv Hxs) as Hx. simpl app.
  rewrite html_parts_cons, (is_item_not_blank _ Hx), Hx.
  change (x :: xs ++ rest) with ((x :: xs) ++ rest).
  by rewrite (collect_items_run _ _ Hxs Hrest).
Qed.

Lemma item_run_split xs :
  exists run rest, xs = run ++ rest /\ Forall (λ l, is_item l = true) run
                   /\ from_option is_item false (head rest) = false.
Proof.
  induction xs as [|l xs IH]; [by exists [], []|].
  destruct (is_item l) eqn:Hl.
  - destruct IH as (run & rest & -> & Hrun & Hrest).
    exists (l :: run), rest. split; [done|]. split; [by constructor|done].
  - exists [], (l :: xs). split; [done|]. split; [constructor|done].
Qed.

(** Where the cut does not fall between two list lines, the blocks of
    [xs ++ ys] are those of [xs] followed by those of [ys]. *)
Lemma html_parts_app_len n xs ys :
  (length xs <= n)%nat ->
  from_option is_item false (last xs) && from_option is_item false (head ys) = false ->
  html_parts (xs ++ ys) = html_parts xs ++ html_parts ys.
Proof.
  revert xs. induction n as [|n IH]; intros xs Hn Hcut.
  - destruct xs; [done|simpl in Hn; lia].
  - destruct xs as [|l xs]; [done|]. simpl in Hn.
    assert (xs <> [] -> last (l :: xs) = last xs) as Hlast.
    { intros Hne. destruct xs; [done|]. apply last_cons_cons. }
    destruct (is_item l) eqn:Hl.
    + destruct (item_run_split (l :: xs)) as (run & rest & Hxs & Hrun & Hrest).
      assert (run <> []) as Hne.
      { intros ->. simpl in Hxs. subst rest. simpl in Hrest. congruence. }
      rewrite Hxs, <- app_assoc. destruct rest as [|r rest].
      * rewrite app_nil_r in Hxs. rewrite app_nil_l.
        assert (from_option is_item false (last (l :: xs)) = true) as Hl'.
        { rewrite Hxs. destruct (last run) as [x|] eqn:Hx; [|by apply last_None in Hx].
          apply last_Some_elem_of in Hx. rewrite Forall_forall in Hrun. by apply Hrun. }
        rewrite Hl' in Hcut. cbn [andb] in Hcut.
        rewrite (html_parts_run run ys Hne Hrun Hcut).
        replace (html_parts run) with (html_parts (run ++ [])) by (by rewrite app_nil_r).
        by rewrite (html_parts_run run [] Hne Hrun eq_refl).
      * rewrite (html_parts_run run ((r :: rest) ++ ys) Hne Hrun Hrest).
        rewrite (html_parts_run run (r :: rest) Hne Hrun Hrest).
        cbn [app]. f_equal. apply (IH (r :: rest)).
        -- apply (f_equal length) in Hxs. rewrite length_app in Hxs. simpl in Hxs.
           destruct run; [done|]. simpl in Hxs. simpl. lia.
        -- rewrite Hxs in Hcut. rewrite last_app in Hcut.
           by destruct (last (r :: rest)) eqn:E; [|apply last_None in E].
    + change ((l :: xs) ++ ys) with (l :: (xs ++ ys)). rewrite !html_parts_cons, Hl.
      assert (html_parts (xs ++ ys) = html_parts xs ++ html_parts ys) as Hrec.
      { destruct xs as [|x xs']; [done|]. apply IH; [lia|].
        by rewrite Hlast in Hcut. }
      rewrite Hrec. by destruct (is_blank l).
Qed.

Lemma html_parts_app xs ys :
  from_option is_item false (last xs) && from_option is_item false (head ys) = false ->
  html_parts (xs ++ ys) = html_parts xs ++ html_parts ys.
Proof. by apply (html_parts_app_len (length xs)). Qed.




(** ** Heading Splitter *)

Lemma str_in_here d s : startswith d s = true -> str_in d s = true.
Proof. destruct s; cbn [str_in]; by intros ->. Qed.

Lemma str_in_spec d s : str_in d s = true <-> exists pre post, s = pre ++ d ++ post.
Proof.
  split.
  - induction s as [|c s IH]; simpl; intros H.
    + rewrite orb_false_r in H. apply startswith_spec in H as [r Hr]. by exists [], r.
    + apply orb_true_iff in H as [H|H].
      * apply startswith_spec in H as [r Hr]. by exists [], r.
      * destruct (IH H) as (pre & post & ->). by exists (c :: pre), post.
  - intros (pre & post & ->). induction pre as [|c pre IH]; simpl.
    + apply str_in_here, startswith_app.
    + by rewrite IH, orb_true_r.
Qed.

(** [split] with [maxsplit=1] cuts at the first occurrence. *)
Lemma str_split1_found d s :
  str_in d s = true ->
  exists pre post,
    str_split1 d s = [pre; post] /\ s = pre ++ d ++ post
    /\ forall k, (k < length pre)%nat -> startswith d (drop k s) = false.
Proof.
  induction s as [|c s IH]; intros H.
  - simpl in H. rewrite orb_false_r in H. simpl. rewrite H.
    apply startswith_spec in H as [r Hr]. exists [], (drop (length d) []).
    split; [done|]. split; [|simpl; lia].
    symmetry in Hr. apply app_eq_nil in Hr as [-> ->]. done.
  - cbn [str_in] in H. cbn [str_split1]. destruct (startswith d (c :: s)) eqn:Hd.
    + exists [], (drop (length d) (c :: s)). split; [done|]. split; [|simpl; lia].
      apply startswith_spec in Hd as [r ->]. by rewrite drop_app_length.
    + simpl in H. destruct (IH H) as (pre & post & Hs & Heq & Hk).
      rewrite Hs. exists (c :: pre), post. split; [done|]. split; [by rewrite Heq|].
      intros [|k] Hlt; [done|]. simpl in Hlt. simpl. apply Hk. lia.
Qed.

(** The splitter, for any list of delimiters: the first delimiter of the
    list that occurs is used, at its first occurrence. *)
Lemma split_with_spec ds raw :
  match head (filter (λ d, str_in d raw = true) ds) with
  | Some d =>
    exists pre post,
      raw = pre ++ d ++ post
      /\ (forall k, (k < length pre)%nat -> startswith d (drop k raw) = false)
      /\ split_with ds raw = (strip pre, strip post)
  | None => split_with ds raw = ([], strip raw)
  end.
Proof.
  induction ds as [|d ds IH]; [done|].
  cbn [split_with]. destruct (str_in d raw) eqn:Hd.
  - rewrite filter_cons_True by done. simpl.
    destruct (str_split1_found _ _ Hd) as (pre & post & -> & Heq & Hk).
    by exists pre, post.
  - rewrite filter_cons_False by congruence. exact IH.
Qed.

(** C5 at the title "Monday – Pizza Night" (with U+2013): no delimiter of
    the program occurs in it, the day label is empty and the whole title is
    the meal title. *)
Theorem en_dash_title_not_split :
  split_day_and_title (lit "Monday – Pizza Night") = ([], lit "Monday – Pizza Night")
  /\ Forall (λ d, str_in d (lit "Monday – Pizza Night") = false) delimiters
  /\ str_in (lit " – ") (lit "Monday – Pizza Night") = true.
Proof.
  split; [vm_compute; reflexivity|]. split; [|vm_compute; reflexivity].
  repeat constructor.
Qed.

(** ** Calendar *)

Section CalendarFacts.
Local Open Scope Z_scope.

Lemma month_day_checked (leapyear : bool) (n : Z) :
  0 <= n < (if leapyear then 366 else 365) -> month_day_check leapyear n = true.
Proof.
  intros Hn.
  assert (forallb (month_day_check true) (seqZ 0 366) = true) as Ht
    by (vm_compute; reflexivity).
  assert (forallb (month_day_check false) (seqZ 0 365) = true) as Hf
    by (vm_compute; reflexivity).
  rewrite forallb_forall in Ht, Hf.
  destruct leapyear; [apply Ht|apply Hf]; apply list_elem_of_In, elem_of_seqZ; lia.
Qed.

Lemma ord2ymd_unfold n0 :
  _ord2ymd n0 =
    let n := n0 - 1 in
    let n400 := n / _DI400Y in
    let n := n mod _DI400Y in
    let n100 := n / _DI100Y in
    let n := n mod _DI100Y in
    let n4 := n / _DI4Y in
    let n := n mod _DI4Y in
    let n1 := n / 365 in
    let n := n mod 365 in
    let yr := n400 * 400 + 1 + n100 * 100 + n4 * 4 + n1 in
    if (n1 =? 4) || (n100 =? 4) then (yr - 1, 12, 31)
    else
      let md := month_day ((n1 =? 3) && (negb (n4 =? 24) || (n100 =? 3))) n in
      (yr, md.1, md.2).
Proof.
  unfold _ord2ymd, month_day. cbv zeta. repeat case_match; done.
Qed.

Lemma days_before_year_split q400 n100 n4 n1 :
  0 <= n100 <= 3 -> 0 <= n4 <= 24 -> 0 <= n1 <= 3 ->
  _days_before_year (q400 * 400 + n100 * 100 + n4 * 4 + n1 + 1)
  = q400 * 146097 + n100 * 36524 + n4 * 1461 + n1 * 365.
Proof.
  intros H100 H4 H1. unfold _days_before_year. cbv zeta.
  replace (q400 * 400 + n100 * 100 + n4 * 4 + n1 + 1 - 1)
    with (q400 * 400 + n100 * 100 + n4 * 4 + n1) by lia.
  assert ((q400 * 400 + n100 * 100 + n4 * 4 + n1) / 4 = q400 * 100 + n100 * 25 + n4) as ->.
  { symmetry. apply (Z.div_unique _ _ _ n1); lia. }
  assert ((q400 * 400 + n100 * 100 + n4 * 4 + n1) / 100 = q400 * 4 + n100) as ->.
  { symmetry. apply (Z.div_unique _ _ _ (n4 * 4 + n1)); lia. }
  assert ((q400 * 400 + n100 * 100 + n4 * 4 + n1) / 400 = q400) as ->.
  { symmetry. apply (Z.div_unique _ _ _ (n100 * 100 + n4 * 4 + n1)); lia. }
  lia.
Qed.

Lemma is_leap_split q400 n100 n4 n1 :
  0 <= n100 <= 3 -> 0 <= n4 <= 24 -> 0 <= n1 <= 3 ->
  _is_leap (q400 * 400 + n100 * 100 + n4 * 4 + n1 + 1)
  = (n1 =? 3) && (negb (n4 =? 24) || (n100 =? 3)).
Proof.
  intros H100 H4 H1. unfold _is_leap.
  set (y := q400 * 400 + n100 * 100 + n4 * 4 + n1 + 1).
  assert (y mod 4 = (n1 + 1) mod 4) as E4.
  { unfold y. replace (q400 * 400 + n100 * 100 + n4 * 4 + n1 + 1)
      with ((n1 + 1) + (q400 * 100 + n100 * 25 + n4) * 4) by lia.
    apply Z.mod_add. lia. }
  assert (y mod 100 = (n4 * 4 + n1 + 1) mod 100) as E100.
  { unfold y. replace (q400 * 400 + n100 * 100 + n4 * 4 + n1 + 1)
      with ((n4 * 4 + n1 + 1) + (q400 * 4 + n100) * 100) by lia.
    apply Z.mod_add. lia. }
  assert (y mod 400 = (n100 * 100 + n4 * 4 + n1 + 1) mod 400) as E400.
  { unfold y. replace (q400 * 400 + n100 * 100 + n4 * 4 + n1 + 1)
      with ((n100 * 100 + n4 * 4 + n1 + 1) + q400 * 400) by lia.
    apply Z.mod_add. lia. }
  rewrite E4, E100, E400. clear E4 E100 E400 y.
  destruct (Z.eqb_spec n1 3) as [->|Hn1].
  - replace ((3 + 1) mod 4) with 0 by done. simpl.
    destruct (Z.eqb_spec n4 24) as [->|Hn4].
    + replace ((24 * 4 + 3 + 1) mod 100) with 0 by done. simpl.
      destruct (Z.eqb_spec n100 3) as [->|Hn100]; [done|].
      apply Z.eqb_neq. rewrite Z.mod_small by lia. lia.
    + simpl. rewrite orb_true_iff. left. apply negb_true_iff, Z.eqb_neq.
      rewrite Z.mod_small by lia. lia.
  - simpl. apply andb_false_iff. left. apply Z.eqb_neq.
    destruct (Z.eq_dec n1 3); [done|]. 
    assert (n1 + 1 = 1 \/ n1 + 1 = 2 \/ n1 + 1 = 3) as [->|[->| ->]] by lia; done.
Qed.

(** [_ord2ymd] gives the date whose ordinal is its argument. *)
Lemma ord2ymd_roundtrip n :
  _ymd2ord (_ord2ymd n).1.1 (_ord2ymd n).1.2 (_ord2ymd n).2 = n
  /\ 1 <= (_ord2ymd n).1.2 <= 12
  /\ 1 <= (_ord2ymd n).2 <= _days_in_month (_ord2ymd n).1.1 (_ord2ymd n).1.2.
Proof.
  rewrite ord2ymd_unfold. cbv zeta. unfold _DI400Y, _DI100Y, _DI4Y.
  remember (n - 1) as a eqn:Ha.
  pose proof (Z.div_mod a 146097 ltac:(lia)) as E1.
  pose proof (Z.mod_pos_bound a 146097 ltac:(lia)) as B1.
  set (n400 := a / 146097) in *. set (r1 := a mod 146097) in *.
  pose proof (Z.div_mod r1 36524 ltac:(lia)) as E2.
  pose proof (Z.mod_pos_bound r1 36524 ltac:(lia)) as B2.
  set (n100 := r1 / 36524) in *. set (r2 := r1 mod 36524) in *.
  pose proof (Z.div_mod r2 1461 ltac:(lia)) as E3.
  pose proof (Z.mod_pos_bound r2 1461 ltac:(lia)) as B3.
  set (n4 := r2 / 1461) in *. set (r3 := r2 mod 1461) in *.
  pose proof (Z.div_mod r3 365 ltac:(lia)) as E4.
  pose proof (Z.mod_pos_bound r3 365 ltac:(lia)) as B4.
  set (n1 := r3 / 365) in *. set (r4 := r3 mod 365) in *.
  clearbody n400 r1 n100 r2 n4 r3 n1 r4.
  assert (0 <= n100 <= 4) as R100 by lia.
  assert (0 <= n4 <= 24) as R4 by lia.
  assert (0 <= n1 <= 4) as R1 by lia.
  destruct (Z.eqb_spec n100 4) as [H100|H100].
  { rewrite orb_true_r. cbn [fst snd].
    assert (n4 = 0 /\ n1 = 0 /\ r4 = 0) as (-> & -> & Hr4) by lia.
    replace (n400 * 400 + 1 + n100 * 100 + 0 * 4 + 0 - 1)
      with (n400 * 400 + 3 * 100 + 24 * 4 + 3 + 1) by lia.
    unfold _ymd2ord, _days_before_month, _days_in_month.
    rewrite days_before_year_split, is_leap_split by lia.
    assert (index _DAYS_BEFORE_MONTH 12 = 334) as -> by done.
    assert (index _DAYS_IN_MONTH 12 = 31) as -> by done.
    change (2 <? 12) with true. change (12 =? 2) with false.
    change (3 =? 3) with true. cbn [andb orb negb]. rewrite ?orb_true_r. lia. }
  destruct (Z.eqb_spec n1 4) as [H1|H1].
  { cbn [orb fst snd].
    assert (n4 <= 23 /\ r4 = 0) as (Hn4 & Hr4) by lia.
    replace (n400 * 400 + 1 + n100 * 100 + n4 * 4 + n1 - 1)
      with (n400 * 400 + n100 * 100 + n4 * 4 + 3 + 1) by lia.
    unfold _ymd2ord, _days_before_month, _days_in_month.
    rewrite days_before_year_split, is_leap_split by lia.
    replace (n4 =? 24) with false by (symmetry; apply Z.eqb_neq; lia).
    assert (index _DAYS_BEFORE_MONTH 12 = 334) as -> by done.
    assert (index _DAYS_IN_MONTH 12 = 31) as -> by done.
    change (2 <? 12) with true. change (12 =? 2) with false.
    change (3 =? 3) with true. cbn [andb orb negb]. rewrite ?orb_true_r. lia. }
  cbn [orb fst snd].
  replace (n400 * 400 + 1 + n100 * 100 + n4 * 4 + n1)
    with (n400 * 400 + n100 * 100 + n4 * 4 + n1 + 1) by lia.
  set (leapyear := (n1 =? 3) && (negb (n4 =? 24) || (n100 =? 3))).
  pose proof (month_day_checked leapyear r4) as Hc.
  unfold month_day_check in Hc. cbv zeta in Hc.
  destruct (month_day leapyear r4) as [m d]. cbn [fst snd] in *.
  rewrite !andb_true_iff in Hc.
  destruct Hc as ((((Hm1 & Hm2) & Hd1) & Hd2) & Hsum); [destruct leapyear; lia|].
  apply Z.leb_le in Hm1, Hm2, Hd1, Hd2. apply Z.eqb_eq in Hsum.
  unfold _ymd2ord, _days_before_month, _days_in_month.
  rewrite days_before_year_split, is_leap_split by lia. fold leapyear.
  split; [lia|]. split; [lia|]. lia.
Qed.

Lemma jan1_ordinal yr : _ymd2ord yr 1 1 = _days_before_year yr + 1.
Proof.
  unfold _ymd2ord, _days_before_month.
  change (index _DAYS_BEFORE_MONTH 1) with 0. change (2 <? 1) with false.
  cbn [andb]. lia.
Qed.

Lemma days_before_next_year yr :
  _days_before_year (yr + 1) = _days_before_year yr + (if _is_leap yr then 366 else 365).
Proof.
  unfold _days_before_year, _is_leap. cbv zeta.
  replace (yr + 1 - 1) with yr by lia.
  destruct (Z.eqb_spec (yr mod 4) 0) as [H4|H4];
    destruct (Z.eqb_spec (yr mod 100) 0) as [H100|H100];
    destruct (Z.eqb_spec (yr mod 400) 0) as [H400|H400];
    cbn [andb orb negb]; Z.div_mod_to_equations; lia.
Qed.

Lemma days_before_year_mono a b : a <= b -> _days_before_year a <= _days_before_year b.
Proof.
  intros Hab. unfold _days_before_year. cbv zeta. Z.div_mod_to_equations. lia.
Qed.

(** The Monday of week 1 is a Monday, and the Thursday after it is one of
    the first seven days of the year: the first Thursday of the year. *)
Lemma isoweek1monday_rule yr :
  isoweekday_of_ordinal (_isoweek1monday yr) = 1
  /\ _ymd2ord yr 1 1 <= _isoweek1monday yr + 3 <= _ymd2ord yr 1 1 + 6
  /\ isoweekday_of_ordinal (_isoweek1monday yr + 3) = 4.
Proof.
  unfold isoweekday_of_ordinal, _isoweek1monday. cbv zeta.
  set (j := _ymd2ord yr 1 1). clearbody j.
  destruct (Z.ltb_spec 3 ((j + 6) mod 7)) as [H|H];
    repeat match goal with
           | |- context [?a =? 0] => destruct (Z.eqb_spec a 0)
           end; Z.div_mod_to_equations; lia.
Qed.

Lemma iso_weeks_in_year_long yr :
  iso_weeks_in_year yr = if long_year yr then 53 else 52.
Proof.
  unfold iso_weeks_in_year, long_year, _isoweek1monday. cbv zeta.
  rewrite !jan1_ordinal, days_before_next_year.
  set (j := _days_before_year yr + 1).
  replace (_days_before_year yr + (if _is_leap yr then 366 else 365) + 1)
    with (j + (if _is_leap yr then 366 else 365)) by (unfold j; lia).
  clearbody j.
  destruct (_is_leap yr);
    destruct (Z.eqb_spec (j mod 7) 4) as [H4|H4];
    destruct (Z.eqb_spec (j mod 7) 3) as [H3|H3];
    cbn [andb orb];
    repeat match goal with
           | |- context [?a <? ?b] => destruct (Z.ltb_spec a b)
           end;
    Z.div_mod_to_equations; lia.
Qed.

Lemma toordinal_date_of_ordinal n : toordinal (date_of_ordinal n) = n.
Proof. unfold toordinal, date_of_ordinal. cbn. apply ord2ymd_roundtrip. Qed.

Ltac eval_tables :=
  repeat match goal with
         | |- context [index ?t ?k] =>
           let v := eval vm_compute in (index t k) in change (index t k) with v
         | |- context [Z.eqb ?a ?b] =>
           let v := eval vm_compute in (Z.eqb a b) in change (Z.eqb a b) with v
         | |- context [Z.ltb ?a ?b] =>
           let v := eval vm_compute in (Z.ltb a b) in change (Z.ltb a b) with v
         end;
  cbn [andb orb negb].

Lemma days_before_month_day y m d :
  1 <= m <= 12 -> 1 <= d <= _days_in_month y m ->
  1 <= _days_before_month y m + d <= (if _is_leap y then 366 else 365).
Proof.
  intros Hm. unfold _days_in_month, _days_before_month.
  assert (m = 1 \/ m = 2 \/ m = 3 \/ m = 4 \/ m = 5 \/ m = 6 \/ m = 7 \/ m = 8
          \/ m = 9 \/ m = 10 \/ m = 11 \/ m = 12) as Hcases by lia.
  destruct (_is_leap y);
    repeat (destruct Hcases as [->|Hcases]); try subst m; eval_tables; lia.
Qed.

(** The year of the day numbered [n] is a year a [date] can hold exactly
    for the ordinals from 1 to [max_ordinal]. *)
Lemma year_of_ordinal n :
  1 <= n <= max_ordinal <-> MINYEAR <= year (date_of_ordinal n) <= MAXYEAR.
Proof.
  unfold max_ordinal, MINYEAR, MAXYEAR.
  destruct (ord2ymd_roundtrip n) as (Hn & Hm & Hd).
  unfold date_of_ordinal. cbn [year].
  destruct (_ord2ymd n) as [[y m] d]. cbn [fst snd] in *.
  pose proof (days_before_month_day _ _ _ Hm Hd) as Hb.
  unfold _ymd2ord in Hn.
  pose proof (days_before_next_year y) as Hnext.
  assert (_days_before_year 1 = 0) as H1 by (vm_compute; reflexivity).
  assert (_days_before_year 10000 = 3652059) as H2 by (vm_compute; reflexivity).
  split.
  - intros [Hlo Hhi]. split.
    + destruct (Z.le_gt_cases 1 y) as [|Hy]; [done|].
      pose proof (days_before_year_mono (y + 1) 1 ltac:(lia)). lia.
    + destruct (Z.le_gt_cases y 9999) as [|Hy]; [done|].
      pose proof (days_before_year_mono 10000 y ltac:(lia)). lia.
  - intros [Hlo Hhi].
    pose proof (days_before_year_mono 1 y ltac:(lia)).
    pose proof (days_before_year_mono (y + 1) 10000 ltac:(lia)). lia.
Qed.

Lemma isoweek1monday_lower yr : 1 <= yr -> 1 <= _isoweek1monday yr.
Proof.
  intros Hyr. destruct (Z.eq_dec yr 1) as [->|Hne]; [vm_compute; discriminate|].
  destruct (isoweek1monday_rule yr) as (_ & Hj & _).
  rewrite jan1_ordinal in Hj.
  pose proof (days_before_year_mono 2 yr ltac:(lia)).
  assert (_days_before_year 2 = 365) by (vm_compute; reflexivity). lia.
Qed.

(** The test of [fromisocalendar] on the week is the range of ISO weeks of
    the year. *)
Lemma week_test_in_range yr week :
  negb ((0 <? week) && (week <? 53)) && negb ((week =? 53) && long_year yr) = false
  <-> iso_week_in_range yr week.
Proof.
  unfold iso_week_in_range. rewrite iso_weeks_in_year_long.
  destruct (long_year yr); cbn [andb negb];
    destruct (Z.ltb_spec 0 week), (Z.ltb_spec week 53), (Z.eqb_spec week 53);
    cbn [andb negb]; split; intros; try done; lia.
Qed.

(** [date.fromisocalendar] in one equation: the date of the ordinal the
    week-date rule gives, when the year is one a date can hold, the week is
    a week of the year, the weekday is one of the seven, and the day is not
    after the last date; [ValueError] otherwise. *)
Lemma fromisocalendar_spec yr week wd :
  fromisocalendar yr week wd =
    if decide (MINYEAR <= yr <= MAXYEAR /\ iso_week_in_range yr week /\ 1 <= wd <= 7
               /\ iso_ordinal yr week wd <= max_ordinal)
    then Ok (date_of_ordinal (iso_ordinal yr week wd))
    else Raise ValueError.
Proof.
  unfold fromisocalendar. fold (long_year yr).
  destruct (Z.leb_spec MINYEAR yr) as [Hy1|Hy1];
    [|cbn [andb negb]; rewrite decide_False by lia; done].
  destruct (Z.leb_spec yr MAXYEAR) as [Hy2|Hy2];
    [|cbn [andb negb]; rewrite decide_False by lia; done].
  cbn [andb negb].
  destruct (negb ((0 <? week) && (week <? 53)) && negb ((week =? 53) && long_year yr))
    eqn:Hw.
  { rewrite decide_False; [done|]. intros (_ & Hr & _).
    apply week_test_in_range in Hr. congruence. }
  apply week_test_in_range in Hw.
  destruct (Z.ltb_spec 0 wd) as [Hd1|Hd1];
    [|cbn [andb negb]; rewrite decide_False by lia; done].
  destruct (Z.ltb_spec wd 8) as [Hd2|Hd2];
    [|cbn [andb negb]; rewrite decide_False by lia; done].
  cbn [andb negb]. cbv zeta. fold (iso_ordinal yr week wd).
  assert (1 <= iso_ordinal yr week wd) as Hn1.
  { unfold iso_ordinal. pose proof (isoweek1monday_lower yr Hy1).
    unfold iso_week_in_range in Hw. lia. }
  generalize dependent (iso_ordinal yr week wd). intros n Hn1.
  destruct (ord2ymd_roundtrip n) as (Hn & Hm & Hd).
  pose proof (year_of_ordinal n) as Hyear. unfold date_of_ordinal in *. cbn [year] in Hyear.
  destruct (_ord2ymd n) as [[y m] d]. cbn [fst snd] in *.
  unfold new_date.
  destruct (Z.leb_spec MINYEAR y) as [Hq1|Hq1];
    [|cbn [andb negb]; rewrite decide_False; [done|]; intros (_ & _ & _ & ?); lia].
  destruct (Z.leb_spec y MAXYEAR) as [Hq2|Hq2];
    [|cbn [andb negb]; rewrite decide_False; [done|]; intros (_ & _ & _ & ?); lia].
  cbn [andb negb].
  replace (1 <=? m) with true by (symmetry; apply Z.leb_le; lia).
  replace (m <=? 12) with true by (symmetry; apply Z.leb_le; lia).
  replace (1 <=? d) with true by (symmetry; apply Z.leb_le; lia).
  replace (d <=? _days_in_month y m) with true by (symmetry; apply Z.leb_le; lia).
  cbn [andb negb]. rewrite decide_True; [done|]. repeat split; try lia; try apply Hw.
Qed.

Lemma iso_week_dates_spec yr week (wds : list Z) (acc : gmap Z date) :
  match iso_week_dates yr week wds acc with
  | Ok d =>
    (forall wd, wd ∈ wds ->
       exists dt, fromisocalendar yr week wd = Ok dt /\ d !! wd = Some dt)
    /\ (forall wd, wd ∉ wds -> d !! wd = acc !! wd)
  | Raise e =>
    e = ValueError /\ exists wd, wd ∈ wds /\ fromisocalendar yr week wd = Raise ValueError
  end.
Proof.
  revert acc. induction wds as [|w wds IH]; intros acc; cbn [iso_week_dates].
  - split; [|done]. intros wd Hwd. by apply elem_of_nil in Hwd.
  - destruct (fromisocalendar yr week w) as [dt|e] eqn:Hw; cbn [rbind].
    + specialize (IH (<[w := dt]> acc)).
      destruct (iso_week_dates yr week wds (<[w:=dt]> acc)) as [d|e].
      * destruct IH as [Hin Hout]. split.
        -- intros wd Hwd. destruct (decide (wd ∈ wds)) as [Hr|Hr]; [by apply Hin|].
           apply elem_of_cons in Hwd as [->|?]; [|done].
           exists dt. split; [done|]. rewrite (Hout _ Hr). apply lookup_insert_eq.
        -- intros wd Hwd. apply not_elem_of_cons in Hwd as [Hne Hr].
           rewrite (Hout _ Hr). by apply lookup_insert_ne.
      * destruct IH as [-> (wd & Hwd & Hf)]. split; [done|].
        exists wd. split; [by apply elem_of_cons; right|done].
    + rewrite fromisocalendar_spec in Hw. case_decide; [done|].
      injection Hw as <-. split; [done|]. exists w. split; [by apply elem_of_cons; left|].
      rewrite fromisocalendar_spec. by rewrite decide_False.
Qed.

Lemma isoweekday_of_iso_ordinal yr week wd :
  1 <= wd <= 7 -> isoweekday_of_ordinal (iso_ordinal yr week wd) = wd.
Proof.
  intros Hwd. destruct (isoweek1monday_rule yr) as (Hm & _ & _).
  unfold isoweekday_of_ordinal, iso_ordinal in *. cbv zeta in *.
  set (m := _isoweek1monday yr) in *. clearbody m.
  repeat match goal with
         | H : context [?a =? 0] |- _ => destruct (Z.eqb_spec a 0)
         | |- context [?a =? 0] => destruct (Z.eqb_spec a 0)
         end; Z.div_mod_to_equations; lia.
Qed.

(** The last day of an ISO year comes before the Monday of week 1 of the
    next year. *)
Lemma iso_ordinal_upper yr week wd :
  week <= iso_weeks_in_year yr -> wd <= 7 ->
  iso_ordinal yr week wd < _isoweek1monday (yr + 1).
Proof.
  intros Hweek Hwd. unfold iso_ordinal, iso_weeks_in_year in *.
  destruct (isoweek1monday_rule yr) as (Hm & _ & _).
  destruct (isoweek1monday_rule (yr + 1)) as (Hm' & _ & _).
  unfold isoweekday_of_ordinal in *. cbv zeta in *.
  set (m := _isoweek1monday yr) in *. set (m' := _isoweek1monday (yr + 1)) in *.
  clearbody m m'.
  repeat match goal with
         | H : context [?a =? 0] |- _ => destruct (Z.eqb_spec a 0)
         end; Z.div_mod_to_equations; lia.
Qed.

Lemma iso_ordinal_in_range yr week wd :
  MINYEAR <= yr <= MAXYEAR -> iso_week_in_range yr week -> wd <= 7 ->
  ~ (yr = MAXYEAR /\ week = 52) ->
  iso_ordinal yr week wd <= max_ordinal.
Proof.
  unfold MINYEAR, MAXYEAR, max_ordinal, iso_week_in_range.
  intros Hyr Hweek Hwd Hlast.
  destruct (Z.eq_dec yr 9999) as [->|Hne].
  - assert (iso_weeks_in_year 9999 = 52) as Hw by (vm_compute; reflexivity).
    assert (_isoweek1monday 9999 = 3651698) as Hm by (vm_compute; reflexivity).
    unfold iso_ordinal. rewrite Hm. lia.
  - pose proof (iso_ordinal_upper yr week wd ltac:(lia) Hwd) as Hup.
    destruct (isoweek1monday_rule (yr + 1)) as (_ & Hj & _).
    rewrite jan1_ordinal in Hj.
    pose proof (days_before_year_mono (yr + 1) 9999 ltac:(lia)).
    assert (_days_before_year 9999 = 3651694) by (vm_compute; reflexivity). lia.
Qed.

Lemma parse_args_both (iso_week yr : Z) : parse_args (Some iso_week) (Some yr) = Ok ().
Proof. unfold parse_args. by rewrite !bool_decide_eq_false_2. Qed.

(** The [try] block of [main] in one equation. *)
Lemma main_iso_dates_spec yr week :
  (exists d,
     main_iso_dates (Some week) (Some yr) = Ok (Some d)
     /\ (forall wd, 1 <= wd <= 7 ->
           fromisocalendar yr week wd = Ok (date_of_ordinal (iso_ordinal yr week wd))
           /\ d !! wd = Some (date_of_ordinal (iso_ordinal yr week wd)))
     /\ (forall wd, ~ 1 <= wd <= 7 -> d !! wd = None))
  \/ (main_iso_dates (Some week) (Some yr) = Raise SystemExit_invalid_iso
      /\ exists wd, 1 <= wd <= 7 /\ fromisocalendar yr week wd = Raise ValueError).
Proof.
  unfold main_iso_dates.
  pose proof (iso_week_dates_spec yr week (seqZ 1 7) ∅) as H.
  destruct (iso_week_dates yr week (seqZ 1 7) ∅) as [d|e].
  - left. exists d. split; [done|]. destruct H as [Hin Hout]. split.
    + intros wd Hwd. destruct (Hin wd) as (dt & Hdt & Hd); [apply elem_of_seqZ; lia|].
      rewrite Hd, Hdt. rewrite fromisocalendar_spec in Hdt. case_decide; [|done].
      by injection Hdt as <-.
    + intros wd Hwd. rewrite Hout; [done|]. rewrite elem_of_seqZ. lia.
  - right. destruct H as [-> (wd & Hwd & Hf)]. split; [done|].
    exists wd. split; [|done]. apply elem_of_seqZ in Hwd. lia.
Qed.

(** C7 as stated fails: week 52 is a week of the year 9999, a year a date
    can hold, and no week number is out of range; yet the run ends in the
    invalid ISO week/year error, because the Saturday of that week is after
    the last date (its Friday is 9999-12-31).  The error also ends the run
    for week 1 of the year 0, a week of that year, because no date holds the
    year 0. *)
Lemma in_range_week_fails :
  (MINYEAR <= 9999 <= MAXYEAR /\ iso_week_in_range 9999 52
   /\ fromisocalendar 9999 52 5 = Ok {| year := 9999; month := 12; day := 31 |}
   /\ fromisocalendar 9999 52 6 = Raise ValueError
   /\ main_iso_dates (Some 52) (Some 9999) = Raise SystemExit_invalid_iso)
  /\ (iso_week_in_range 0 1
      /\ main_iso_dates (Some 1) (Some 0) = Raise SystemExit_invalid_iso).
Proof.
  split.
  - split; [unfold MINYEAR, MAXYEAR; lia|]. split.
    + unfold iso_week_in_range.
      replace (iso_weeks_in_year 9999) with 52 by (vm_compute; reflexivity). lia.
    + repeat split; vm_compute; reflexivity.
  - split; [|vm_compute; reflexivity].
    unfold iso_week_in_range.
    replace (iso_weeks_in_year 0) with 52 by (vm_compute; reflexivity). lia.
Qed.

(** C7, as amended.  The Monday of week 1 is the Monday of the week of the
    first Thursday of the year, and a year has 53 weeks when it starts on a
    Thursday, or on a Wednesday and is a leap year, and 52 otherwise.  For
    every year and week: when the year is one a date can hold (1 to 9999),
    the week is a week of the year, and the pair is not week 52 of 9999, the
    map holds, for each weekday 1 to 7 and no other key, the date the
    week-date rule gives (a date that is valid, with that ordinal and that
    ISO weekday); in every other case (a week number out of the range of the
    year's weeks, as 0, 54, or 53 in a year of 52 weeks; a year no date can
    hold; week 52 of 9999, whose Saturday is after the last date) the run
    ends with the invalid ISO week/year error, whatever the text, and no
    document is produced: there is no partial map.  For 2026 and week 9,
    Monday is 2026-02-23. *)
Theorem iso_week_dates_whole_or_error (yr week : Z) :
  (isoweekday_of_ordinal (_isoweek1monday yr) = 1
   /\ _ymd2ord yr 1 1 <= _isoweek1monday yr + 3 <= _ymd2ord yr 1 1 + 6
   /\ isoweekday_of_ordinal (_isoweek1monday yr + 3) = 4)
  /\ iso_weeks_in_year yr = (if long_year yr then 53 else 52)
  /\ (if decide (MINYEAR <= yr <= MAXYEAR /\ iso_week_in_range yr week
                 /\ ~ (yr = MAXYEAR /\ week = 52))
      then exists d,
             main_iso_dates (Some week) (Some yr) = Ok (Some d)
             /\ (forall wd, 1 <= wd <= 7 ->
                   exists dt, d !! wd = Some dt /\ valid_date dt
                              /\ toordinal dt = iso_ordinal yr week wd
                              /\ isoweekday_of_ordinal (toordinal dt) = wd)
             /\ (forall wd, ~ 1 <= wd <= 7 -> d !! wd = None)
      else main_iso_dates (Some week) (Some yr) = Raise SystemExit_invalid_iso
           /\ forall uni_isalnum markdown_text,
                main uni_isalnum markdown_text (Some week) (Some yr)
                = Raise SystemExit_invalid_iso)
  /\ (exists d, main_iso_dates (Some 9) (Some 2026) = Ok (Some d)
                /\ d !! 1 = Some {| year := 2026; month := 2; day := 23 |}).
Proof.
  split; [apply isoweek1monday_rule|]. split; [apply iso_weeks_in_year_long|].
  assert (forall wd, 1 <= wd <= 7 -> forall dt,
            fromisocalendar yr week wd = Ok dt ->
            MINYEAR <= yr <= MAXYEAR /\ iso_week_in_range yr week
            /\ dt = date_of_ordinal (iso_ordinal yr week wd)
            /\ iso_ordinal yr week wd <= max_ordinal) as Hok.
  { intros wd Hwd dt Hdt. rewrite fromisocalendar_spec in Hdt.
    case_decide as Hc; [|done]. injection Hdt as <-. tauto. }
  split; [|eexists; split; [vm_compute; reflexivity|]; vm_compute; reflexivity].
  destruct (main_iso_dates_spec yr week) as [(d & Hd & Hin & Hout)|(Hr & wd & Hwd & Hf)].
  - destruct (Hin 1 ltac:(lia)) as [H1 _].
    destruct (Hok 1 ltac:(lia) _ H1) as (Hyr & Hweek & _ & _).
    rewrite decide_True.
    + exists d. split; [done|]. split; [|done].
      intros wd Hwd. destruct (Hin wd Hwd) as [Hf Hl].
      destruct (Hok wd Hwd _ Hf) as (_ & _ & _ & Hmax).
      exists (date_of_ordinal (iso_ordinal yr week wd)). split; [done|].
      rewrite toordinal_date_of_ordinal. split; [|split; [done|]].
      * destruct (ord2ymd_roundtrip (iso_ordinal yr week wd)) as (_ & Hm & Hday).
        unfold valid_date. split; [|exact (conj Hm Hday)].
        apply year_of_ordinal.
        split; [|done]. unfold iso_ordinal, iso_week_in_range in *.
        pose proof (isoweek1monday_lower yr ltac:(unfold MINYEAR in *; lia)). lia.
      * by apply isoweekday_of_iso_ordinal.
    + split; [done|]. split; [done|]. intros [-> ->].
      destruct (Hin 7 ltac:(lia)) as [H7 _].
      destruct (Hok 7 ltac:(lia) _ H7) as (_ & _ & _ & Hmax).
      vm_compute in Hmax. by apply Hmax.
  - rewrite decide_False.
    + split; [done|]. intros u text. unfold main.
      rewrite parse_args_both. cbn [rbind]. by rewrite Hr.
    + intros (Hyr & Hweek & Hlast).
      rewrite fromisocalendar_spec in Hf. rewrite decide_True in Hf; [done|].
      split; [done|]. split; [done|]. split; [lia|].
      apply iso_ordinal_in_range; [done|done|lia|done].
Qed.

Lemma iso_week_dates_whole_or_error_witness :
  exists d, main_iso_dates (Some 9%Z) (Some 2026%Z) = Ok (Some d)
            /\ forall wd, ~ 1 <= wd <= 7 -> d !! wd = None.
Proof.
  destruct (iso_week_dates_whole_or_error 2026 9) as (_ & _ & H & _).
  rewrite decide_True in H.
  - destruct H as (d & Hd & _ & Hout). by exists d.
  - split; [unfold MINYEAR, MAXYEAR; lia|]. split; [|lia].
    unfold iso_week_in_range.
    replace (iso_weeks_in_year 2026) with 53 by (vm_compute; reflexivity). lia.
Defined.

(** Week 54, week 0, and week 53 of a year of 52 weeks end in the error. *)
Example invalid_weeks :
  main_iso_dates (Some 54) (Some 2026) = Raise SystemExit_invalid_iso
  /\ main_iso_dates (Some 0) (Some 2026) = Raise SystemExit_invalid_iso
  /\ main_iso_dates (Some 53) (Some 2025) = Raise SystemExit_invalid_iso
  /\ main_iso_dates (Some 52) (Some 9999) = Raise SystemExit_invalid_iso.
Proof. repeat split; vm_compute; reflexivity. Qed.
End CalendarFacts.

(** ** Weekday Resolver *)

(** C6 at the label "Frıday" (its third letter is U+0131): the pattern
    matches the label under [re.IGNORECASE], the lower-cased match is no key
    of [DAY_NAME_TO_ISO], and the resolver ends in [KeyError] where a number
    from 1 to 7 or "not found" is due.  The same holds with U+0130 for the
    letter i and with U+017F for the letter s. *)
Theorem dotless_i_label_raises (uni_isalnum : N -> bool) :
  extract_weekday uni_isalnum (lit "Frıday") = Raise (KeyError (lit "frıday"))
  /\ day_search uni_isalnum None (lit "Frıday") = Some (lit "Frıday")
  /\ extract_weekday uni_isalnum (lit "Friday") = Ok (Some 5%Z)
  /\ extract_weekday uni_isalnum (lit "FRİDAY") = Raise (KeyError (lit "fri̇day"))
  /\ extract_weekday uni_isalnum (lit "Tueſday") = Raise (KeyError (lit "tueſday")).
Proof. repeat split; vm_compute; reflexivity. Qed.

(** A weekday name inside a longer word is no match. *)
Example mondayish_not_found (uni_isalnum : N -> bool) :
  extract_weekday uni_isalnum (lit "On Mondayish Street") = Ok None.
Proof. vm_compute. reflexivity. Qed.

(** ** Document Assembler *)

(** C8 at the document "## Frıday - Fish" with no date map: the day label is
    "Frıday", the resolver ends in [KeyError], and so does the conversion,
    where the date is to be left out and the conversion to succeed. *)
Theorem dotless_i_heading_aborts (uni_isalnum : N -> bool) :
  build_html_document uni_isalnum (lit "## Frıday - Fish") None
  = Raise (KeyError (lit "frıday"))
  /\ split_day_and_title (lit "Frıday - Fish") = (lit "Frıday", lit "Fish")
  /\ main uni_isalnum (lit "## Frıday - Fish") None None = Raise (KeyError (lit "frıday")).
Proof. repeat split; vm_compute; reflexivity. Qed.

(** ** Counting a tag in the markup *)

Lemma count_sub_cons pat c s :
  count_sub pat (c :: s) = ((if startswith pat (c :: s) then 1 else 0) + count_sub pat s)%nat.
Proof. done. Qed.

Lemma decided_sound pat s b t : decided pat s = Some b -> startswith pat (s ++ t) = b.
Proof.
  revert s. induction pat as [|a pat IH]; intros s H; cbn [decided] in H.
  - by injection H as <-.
  - destruct s as [|c s]; [done|]. cbn [app startswith].
    destruct (a =? c); cbn [andb]; [by apply IH|by injection H as <-].
Qed.

Lemma scan_sound pat s k : scan pat s = Some k -> weight pat k s.
Proof.
  revert k. induction s as [|c s IH]; intros k H t; cbn [scan] in H.
  - by injection H as <-.
  - destruct (decided pat (c :: s)) as [b|] eqn:Hd; [|done].
    destruct (scan pat s) as [k'|]; [|done]. injection H as <-.
    change ((c :: s) ++ t) with (c :: (s ++ t)). rewrite count_sub_cons.
    change (c :: (s ++ t)) with ((c :: s) ++ t). rewrite (decided_sound _ _ _ t Hd).
    rewrite (IH _ eq_refl t). by destruct b.
Qed.

Lemma weight_nil pat : weight pat 0 [].
Proof. by intros t. Qed.

Lemma weight_app pat k1 k2 a b :
  weight pat k1 a -> weight pat k2 b -> weight pat (k1 + k2) (a ++ b).
Proof. intros Ha Hb t. rewrite <- app_assoc, Ha, Hb. lia. Qed.

Lemma weight_count pat k s : weight pat k s -> count_sub pat s = (k + count_sub pat [])%nat.
Proof. intros H. specialize (H []). by rewrite app_nil_r in H. Qed.

Lemma weight_concat pat (ls : list (list N)) :
  Forall (weight pat 0) ls -> weight pat 0 (concat ls).
Proof.
  induction 1 as [|l ls Hl _ IH]; [apply weight_nil|].
  cbn [concat]. by apply (weight_app pat 0 0).
Qed.

Lemma weight_join pat sep (ls : list (list N)) (f : list N -> nat) :
  weight pat 0 sep -> Forall (λ l, weight pat (f l) l) ls ->
  weight pat (sum_list (f <$> ls)) (join sep ls).
Proof.
  intros Hsep. induction 1 as [|l ls Hl Hls IH]; [apply weight_nil|].
  cbn [join]. destruct ls as [|l' ls].
  - cbn. by rewrite Nat.add_0_r.
  - cbn [fmap list_fmap sum_list] in *.
    apply weight_app; [done|]. by apply (weight_app pat 0).
Qed.

Ltac in_literals :=
  unfold plain_literals, marked_tags;
  repeat (first [apply list_elem_of_here | apply list_elem_of_further]).

Section Marker.

Variable pat : list N.
Hypothesis pat_ok : marker_ok pat = true.

Lemma marker_shape : exists p, pat = 60 :: p /\ Forall (λ x, x <> 60) p.
Proof.
  unfold marker_ok in pat_ok. destruct pat as [|c p]; [done|].
  rewrite !andb_true_iff in pat_ok. destruct pat_ok as (((Hc & Hp) & _) & _).
  apply N.eqb_eq in Hc as ->. exists p. split; [done|].
  rewrite forallb_forall in Hp. apply Forall_forall. intros x Hx%list_elem_of_In.
  specialize (Hp _ Hx). apply negb_true_iff in Hp. by apply N.eqb_neq.
Qed.

Lemma weight_plain l : l ∈ plain_literals -> weight pat 0 l.
Proof.
  intros Hl. apply scan_sound.
  unfold marker_ok in pat_ok. destruct pat as [|c p]; [done|].
  rewrite !andb_true_iff in pat_ok. destruct pat_ok as ((_ & Hplain) & _).
  rewrite forallb_forall in Hplain. apply list_elem_of_In in Hl.
  specialize (Hplain _ Hl). by apply bool_decide_eq_true in Hplain.
Qed.

Lemma weight_marked l : l ∈ marked_tags -> weight pat (tag_weight pat l) l.
Proof.
  intros Hl. apply scan_sound. unfold tag_weight.
  unfold marker_ok in pat_ok. destruct pat as [|c p]; [done|].
  rewrite !andb_true_iff in pat_ok. destruct pat_ok as (_ & Hmarked).
  rewrite forallb_forall in Hmarked. apply list_elem_of_In in Hl.
  apply Hmarked, bool_decide_eq_true in Hl as [k Hk]. by rewrite Hk.
Qed.

(** Text without "<" holds no tag. *)
Lemma weight_no_lt s : Forall (λ x, x <> 60) s -> weight pat 0 s.
Proof.
  destruct marker_shape as (p & -> & _).
  induction 1 as [|c s Hc _ IH]; [apply weight_nil|]. intros t.
  change ((c :: s) ++ t) with (c :: (s ++ t)). rewrite count_sub_cons, IH.
  cbn [startswith]. by rewrite (proj2 (N.eqb_neq 60 c)) by done.
Qed.

Lemma html_escape_no_lt s : Forall (λ x, x <> 60) (html_escape s).
Proof.
  unfold html_escape. induction s as [|c s IH]; [constructor|].
  change ((c :: s) ≫= escape_char) with (escape_char c ++ (s ≫= escape_char)).
  apply Forall_app. split; [|done]. unfold escape_char.
  repeat case_match; try (by repeat constructor).
  repeat constructor. intros ->. done.
Qed.

Lemma weight_escape s : weight pat 0 (html_escape s).
Proof. apply weight_no_lt, html_escape_no_lt. Qed.


Ltac plain := apply weight_plain; in_literals.

Lemma weight_app0 a b : weight pat 0 a -> weight pat 0 b -> weight pat 0 (a ++ b).
Proof. apply (weight_app pat 0 0). Qed.

Lemma weight_join0 sep (ls : list (list N)) :
  weight pat 0 sep -> Forall (weight pat 0) ls -> weight pat 0 (join sep ls).
Proof.
  intros Hsep. induction 1 as [|l ls Hl Hls IH]; [apply weight_nil|].
  cbn [join]. destruct ls as [|l' ls]; [done|].
  apply weight_app0; [done|]. by apply weight_app0.
Qed.

Lemma weight_replace_match m : weight pat 0 (replace_match m).
Proof.
  unfold replace_match. apply weight_app0; [plain|].
  apply weight_app0; [apply weight_escape|plain].
Qed.

Lemma weight_render_fold text ms acc :
  Forall (weight pat 0) acc.1 ->
  Forall (weight pat 0) (foldl (render_step text) acc ms).1.
Proof.
  revert acc. induction ms as [|m ms IH]; intros acc Hacc; [done|].
  cbn [foldl]. apply IH. unfold render_step. cbn [fst].
  apply Forall_app. split; [done|].
  repeat constructor; [apply weight_escape|apply weight_replace_match].
Qed.

(** The inline renderer writes no tag but its own. *)
Lemma weight_render_inline text : weight pat 0 (render_inline text).
Proof.
  unfold render_inline. cbv zeta. apply weight_concat, Forall_app. split.
  - by apply weight_render_fold.
  - repeat constructor. apply weight_escape.
Qed.

Lemma weight_ul_block items :
  Forall (weight pat 0) items -> weight pat 0 (ul_block items).
Proof.
  intros Hitems. unfold ul_block. apply weight_app0; [plain|].
  apply weight_app0; [|plain]. apply weight_concat, Forall_fmap.
  eapply Forall_impl; [exact Hitems|]. intros item Hitem.
  change (weight pat 0 (s_li_open ++ item ++ s_li_close)).
  apply weight_app0; [plain|]. apply weight_app0; [done|plain].
Qed.

Lemma weight_p_block stripped : weight pat 0 (p_block stripped).
Proof.
  unfold p_block. apply weight_app0; [plain|].
  apply weight_app0; [apply weight_render_inline|plain].
Qed.

Lemma weight_collect_items ls : Forall (weight pat 0) (collect_items ls).1.
Proof.
  induction ls as [|l ls IH]; cbn [collect_items]; [constructor|].
  destruct (negb _); cbn [fst]; [constructor|].
  constructor; [apply weight_render_inline|done].
Qed.

Lemma weight_convert_loop fuel ls : Forall (weight pat 0) (convert_loop fuel ls).
Proof.
  revert ls. induction fuel as [|fuel IH]; intros ls; [constructor|].
  cbn [convert_loop]. destruct ls as [|l rest]; [constructor|].
  destruct (is_empty _); [apply IH|].
  destruct (startswith _ _).
  - constructor; [|apply IH]. apply weight_ul_block, weight_collect_items.
  - constructor; [|apply IH]. apply weight_p_block.
Qed.

(** The block converter writes no tag but its own. *)
Lemma weight_convert ls : weight pat 0 (convert_lines_to_html ls).
Proof.
  unfold convert_lines_to_html, html_parts. apply weight_join0; [plain|].
  apply weight_convert_loop.
Qed.

Lemma weight_day_html day_label meal_date :
  weight pat (day_weight pat day_label meal_date) (day_html day_label meal_date).
Proof.
  unfold day_weight, day_html, day_name_html. destruct (is_empty day_label).
  - apply weight_nil.
  - rewrite <- !app_assoc.
    replace (tag_weight pat s_day_open + tag_weight pat s_name_open
             + match meal_date with Some _ => tag_weight pat s_date_open | None => 0 end)%nat
      with (tag_weight pat s_day_open
            + (tag_weight pat s_name_open
               + (0 + (0 + (match meal_date with
                            | Some _ => tag_weight pat s_date_open
                            | None => 0
                            end + 0)))))%nat by lia.
    apply weight_app; [apply weight_marked; in_literals|].
    apply weight_app; [apply weight_marked; in_literals|].
    apply weight_app; [apply weight_escape|].
    apply weight_app; [plain|].
    apply weight_app; [|plain].
    unfold date_html. destruct meal_date as [d|]; [|apply weight_nil].
    replace (tag_weight pat s_date_open) with (tag_weight pat s_date_open + (0 + 0))%nat by lia.
    apply weight_app; [apply weight_marked; in_literals|].
    apply weight_app; [apply weight_escape|plain].
Qed.

Lemma weight_card k day_line meal_title content_html :
  weight pat k day_line -> weight pat 0 content_html ->
  weight pat (tag_weight pat card_section_open + k)
    (card_markup day_line meal_title content_html).
Proof.
  intros Hday Hcontent. unfold card_markup.
  replace (tag_weight pat card_section_open + k)%nat
    with (0 + (tag_weight pat card_section_open + (0 + (k + (0 + (0 + (0 + (0 + 0))))))))%nat
    by lia.
  apply weight_app; [plain|].
  apply weight_app; [apply weight_marked; in_literals|].
  apply weight_app; [plain|].
  apply weight_app; [done|].
  apply weight_app; [plain|].
  apply weight_app; [apply weight_escape|].
  apply weight_app; [plain|].
  apply weight_app; [done|plain].
Qed.

Lemma weight_page k page_title intro_section cards_markup :
  weight pat 0 intro_section -> weight pat k cards_markup ->
  weight pat k (page_markup page_title intro_section cards_markup).
Proof.
  intros Hintro Hcards. unfold page_markup.
  replace k with (0 + (0 + (0 + (0 + (0 + (0 + (0 + (k + 0))))))))%nat by lia.
  apply weight_app; [plain|].
  apply weight_app; [apply weight_escape|].
  apply weight_app; [plain|].
  apply weight_app; [apply weight_escape|].
  apply weight_app; [plain|].
  apply weight_app; [done|].
  apply weight_app; [plain|].
  apply weight_app; [done|plain].
Qed.

End Marker.

Ltac plain_by H := apply (weight_plain _ H); in_literals.

Lemma marker_ok_section : marker_ok card_section_open = true.
Proof. vm_compute. reflexivity. Qed.

Lemma marker_ok_day : marker_ok s_day_open = true.
Proof. vm_compute. reflexivity. Qed.

Lemma marker_ok_date : marker_ok s_date_open = true.
Proof. vm_compute. reflexivity. Qed.

Lemma count_sub_nil pat : pat <> [] -> count_sub pat [] = 0%nat.
Proof. by destruct pat. Qed.

Lemma sum_list_ones {A} (l : list A) : sum_list ((λ _, 1%nat) <$> l) = length l.
Proof. induction l as [|x l IH]; [done|]. cbn. by rewrite IH. Qed.

Section AssemblerFacts.

Variable uni_isalnum : N -> bool.

(** The card of a section, once the resolver has answered. *)
Lemma render_card_unfold iso_dates s :
  render_card uni_isalnum iso_dates s =
    let day_label := (split_day_and_title (raw_title s)).1 in
    match (if is_empty day_label then Ok None
           else extract_weekday uni_isalnum day_label) with
    | Ok weekday_number =>
      Ok (card_markup (day_html day_label (lookup_meal_date iso_dates weekday_number))
            (split_day_and_title (raw_title s)).2 (convert_lines_to_html (lines s)))
    | Raise e => Raise e
    end.
Proof. unfold render_card. cbv zeta. by destruct (if is_empty _ then _ else _). Qed.

(** X16. The card of a section holds the day line, once, when the day label
    the splitter returns for its heading is not empty, and does not hold it
    when that label is empty.  With a label in which the resolver finds no
    weekday, the day line is the escaped label in its two tags, with no date.
    No card is written only when the resolver raises on the label. *)
Theorem day_line_iff_label (iso_dates : option (gmap Z date)) (s : section) :
  let day_label := (split_day_and_title (raw_title s)).1 in
  match render_card uni_isalnum iso_dates s with
  | Ok card =>
    count_sub s_day_open card = (if is_empty day_label then 0 else 1)%nat
    /\ (exists weekday_number,
          (if is_empty day_label then Ok None else extract_weekday uni_isalnum day_label)
          = Ok weekday_number
          /\ card = card_markup
                      (day_html day_label (lookup_meal_date iso_dates weekday_number))
                      (split_day_and_title (raw_title s)).2
                      (convert_lines_to_html (lines s)))
    /\ (day_label <> [] -> extract_weekday uni_isalnum day_label = Ok None ->
        card = card_markup
                 (s_day_open ++ (s_name_open ++ html_escape day_label ++ s_span_close)
                  ++ [] ++ s_p_close)
                 (split_day_and_title (raw_title s)).2
                 (convert_lines_to_html (lines s)))
  | Raise e => day_label <> [] /\ extract_weekday uni_isalnum day_label = Raise e
  end.
Proof.
  intros day_label. rewrite render_card_unfold. cbv zeta. fold day_label.
  destruct (is_empty day_label) eqn:Hempty.
  - split; [|split].
    + rewrite (weight_count _ _ _
        (weight_card _ marker_ok_day _ _ _ _ (weight_day_html _ marker_ok_day _ _)
           (weight_convert _ marker_ok_day _))).
      unfold day_weight. rewrite Hempty. vm_compute. reflexivity.
    + by exists None.
    + intros Hne. by destruct day_label.
  - destruct (extract_weekday uni_isalnum day_label) as [w|e] eqn:Hw.
    + split; [|split].
      * rewrite (weight_count _ _ _
          (weight_card _ marker_ok_day _ _ _ _ (weight_day_html _ marker_ok_day _ _)
             (weight_convert _ marker_ok_day _))).
        unfold day_weight. rewrite Hempty.
        destruct (lookup_meal_date iso_dates w); vm_compute; reflexivity.
      * by exists w.
      * intros _ [= ->]. unfold day_html, day_name_html. rewrite Hempty.
        by destruct iso_dates.
    + split; [|done]. intros ->. done.
Qed.

(** C10 at its own heading "Someday – Stew" (with U+2013): no delimiter of
    the program occurs in it, so the splitter returns an empty day label and
    the whole heading as the meal title, and the card holds no day line,
    whatever the date map; the label "Someday" is not shown. *)
Theorem en_dash_heading_no_day_line (iso_dates : option (gmap Z date)) :
  split_day_and_title (lit "Someday – Stew") = ([], lit "Someday – Stew")
  /\ render_card uni_isalnum iso_dates {| raw_title := lit "Someday – Stew"; lines := [] |}
     = Ok (card_markup [] (lit "Someday – Stew") [])
  /\ count_sub s_day_open (card_markup [] (lit "Someday – Stew") []) = 0%nat
  /\ card_markup [] (lit "Someday – Stew") []
     = lit "
            <section class=`meal-card`>
                
                <h2>Someday – Stew</h2>
                <div class=`meal-body`>
                    
                </div>
            </section>
            ".
Proof.
  split; [vm_compute; reflexivity|]. split; [|repeat split; vm_compute; reflexivity].
  destruct iso_dates; vm_compute; reflexivity.
Qed.

(** The same heading written with the hyphen, "Someday - Stew": a day label
    with no weekday in it, shown in the day line. *)
Example someday_stew (iso_dates : option (gmap Z date)) :
  split_day_and_title (lit "Someday - Stew") = (lit "Someday", lit "Stew")
  /\ extract_weekday uni_isalnum (lit "Someday") = Ok None
  /\ render_card uni_isalnum iso_dates {| raw_title := lit "Someday - Stew"; lines := [] |}
     = Ok (card_markup (lit "<p class=`meal-day`><span class=`day-name`>Someday</span></p>")
             (lit "Stew") []).
Proof.
  split; [vm_compute; reflexivity|]. split; [vm_compute; reflexivity|].
  destruct iso_dates; vm_compute; reflexivity.
Qed.


Lemma sections_keeping_titles keep ls :
  raw_title <$> sections_keeping keep ls = h2_text <$> filter (λ l, is_h2 l = true) ls.
Proof.
  induction ls as [|l ls IH]; [done|]. cbn [sections_keeping].
  destruct (is_h2 l) eqn:Hl.
  - rewrite filter_cons_True by done. cbn. by rewrite IH.
  - by rewrite filter_cons_False by congruence.
Qed.

Lemma render_cards_spec iso_dates ss :
  match render_cards uni_isalnum iso_dates ss with
  | Ok cards => Forall2 (λ s card, render_card uni_isalnum iso_dates s = Ok card) ss cards
  | Raise e => exists s, s ∈ ss /\ render_card uni_isalnum iso_dates s = Raise e
  end.
Proof.
  induction ss as [|s ss IH]; cbn [render_cards]; [constructor|].
  destruct (render_card uni_isalnum iso_dates s) as [card|e] eqn:Hs; cbn [rbind].
  - destruct (render_cards uni_isalnum iso_dates ss) as [cards|e]; cbn [rbind].
    + by constructor.
    + destruct IH as (s' & Hin & Hs'). exists s'. split; [by apply list_elem_of_further|done].
  - exists s. split; [apply list_elem_of_here|done].
Qed.

Lemma weight_render_card pat iso_dates s card :
  marker_ok pat = true ->
  render_card uni_isalnum iso_dates s = Ok card ->
  exists meal_date,
    weight pat (tag_weight pat card_section_open
                + day_weight pat (split_day_and_title (raw_title s)).1 meal_date) card.
Proof.
  intros Hpat. rewrite render_card_unfold. cbv zeta.
  destruct (if is_empty _ then _ else _) as [w|]; [|done]. intros [= <-].
  eexists. apply weight_card; [done|by apply weight_day_html|by apply weight_convert].
Qed.

Lemma day_weight_section label meal_date : day_weight card_section_open label meal_date = 0%nat.
Proof. unfold day_weight. destruct (is_empty label), meal_date; vm_compute; reflexivity. Qed.

(** C1. When the document is produced, the opening tag of a meal card
    occurs in it as many times as the input has lines whose trimmed form
    begins with "## "; the cards stand in the page in the order of these
    lines, each card made from the text of its heading.  No document is
    produced only when the resolver raises on the day label of a heading. *)
Theorem one_card_per_heading (markdown_text : list N) (iso_dates : option (gmap Z date)) :
  let headings := filter (λ l, is_h2 l = true) (splitlines markdown_text) in
  match build_html_document uni_isalnum markdown_text iso_dates with
  | Ok html =>
    count_sub card_section_open html = length headings
    /\ exists page_title intro_section cards,
         html = page_markup page_title intro_section (join s_newline cards)
         /\ count_sub card_section_open intro_section = 0%nat
         /\ Forall2
              (λ h card,
                 count_sub card_section_open card = 1%nat
                 /\ exists meal_date content_html,
                      card = card_markup
                               (day_html (split_day_and_title (h2_text h)).1 meal_date)
                               (split_day_and_title (h2_text h)).2 content_html)
              headings cards
  | Raise e =>
    exists h, h ∈ headings
              /\ extract_weekday uni_isalnum (split_day_and_title (h2_text h)).1 = Raise e
  end.
Proof.
  intros headings. unfold build_html_document.
  pose proof (parse_sections markdown_text) as Hsecs.
  destruct (parse_weekly_plan markdown_text) as [[title intro_lines] secs].
  cbn [snd] in Hsecs.
  assert (raw_title <$> secs = h2_text <$> headings) as Htitles
    by (rewrite Hsecs; apply sections_keeping_titles).
  clear Hsecs. clearbody headings. cbv zeta.
  pose proof (render_cards_spec iso_dates secs) as Hcards.
  destruct (render_cards uni_isalnum iso_dates secs) as [cards|e]; cbn [rbind].
  - set (intro_section := if is_empty _ then [] else _).
    assert (weight card_section_open 0 intro_section) as Hintro.
    { unfold intro_section. destruct (is_empty _); [apply weight_nil|].
      apply weight_app0; [plain_by marker_ok_section|].
      apply weight_app0; [|plain_by marker_ok_section].
      destruct intro_lines; [apply weight_nil|apply weight_convert, marker_ok_section]. }
    assert (Forall2 (λ h card,
              weight card_section_open 1 card
              /\ exists meal_date content_html,
                   card = card_markup
                            (day_html (split_day_and_title (h2_text h)).1 meal_date)
                            (split_day_and_title (h2_text h)).2 content_html)
              headings cards) as Hall.
    { clear Hintro intro_section. revert headings Htitles.
      induction Hcards as [|s card secs cards Hs _ IH]; intros headings Htitles.
      - destruct headings; [constructor|done].
      - destruct headings as [|h headings]; [done|].
        cbn [fmap list_fmap] in Htitles. injection Htitles as Hh Htitles.
        constructor; [|by apply IH]. split.
        + destruct (weight_render_card _ _ _ _ marker_ok_section Hs) as [d Hd].
          by rewrite day_weight_section in Hd.
        + rewrite render_card_unfold in Hs. cbv zeta in Hs. rewrite Hh in Hs.
          destruct (if is_empty _ then _ else _) as [w|]; [|done].
          injection Hs as <-. by eexists _, _. }
    split.
    + rewrite (weight_count _ (length cards)).
      * rewrite count_sub_nil by done. rewrite (Forall2_length _ _ _ Hall). lia.
      * apply weight_page; [apply marker_ok_section|done|].
        rewrite <- (sum_list_ones cards).
        apply weight_join; [plain_by marker_ok_section|].
        apply Forall_forall. intros card Hcard.
        apply list_elem_of_lookup in Hcard as [i Hi].
        destruct (Forall2_lookup_r _ _ _ _ _ Hall Hi) as (h & _ & Hw & _). exact Hw.
    + eexists _, intro_section, cards. split; [done|]. split.
      * rewrite (weight_count _ _ _ Hintro). by rewrite count_sub_nil.
      * eapply Forall2_impl; [exact Hall|]. intros h card [Hw Hc]. split; [|done].
        rewrite (weight_count _ _ _ Hw). by rewrite count_sub_nil.
  - destruct Hcards as (s & Hin & Hs).
    rewrite render_card_unfold in Hs. cbv zeta in Hs.
    destruct (is_empty _) eqn:He; [done|].
    assert (raw_title s ∈ h2_text <$> headings) as Hh.
    { rewrite <- Htitles. exact (list_elem_of_fmap_2 raw_title _ _ Hin). }
    apply list_elem_of_fmap in Hh as (h & Hh & Hhin). exists h. split; [done|].
    rewrite <- Hh. destruct (extract_weekday _ _); congruence.
Qed.

End AssemblerFacts.

(** ** Inline Renderer *)

Lemma startswith_stars_inv s :
  startswith s_stars s = true -> exists post, s = s_stars ++ post.
Proof. apply startswith_spec. Qed.

(** The lazy group: what it returns is a shortest inner text. *)
Lemma lazy_group_some s g :
  lazy_group_then_close s = Some g ->
  exists post, s = g ++ s_stars ++ post /\ g <> [] /\ (10 ∉ g)
    /\ forall k, (0 < k < length g)%nat -> startswith s_stars (drop k s) = false.
Proof.
  revert g. induction s as [|c s IH]; intros g H; cbn [lazy_group_then_close] in H; [done|].
  destruct (N.eqb_spec c 10) as [|Hc]; [done|].
  destruct (startswith s_stars s) eqn:Hs.
  - injection H as <-. apply startswith_spec in Hs as [post ->].
    exists post. split; [done|]. split; [done|]. split.
    + intros [Heq|Hin%elem_of_nil]%elem_of_cons; [congruence|done].
    + cbn [length]. lia.
  - destruct (lazy_group_then_close s) as [g'|]; [|done]. injection H as <-.
    destruct (IH _ eq_refl) as (post & -> & Hne & Hnl & Hmin).
    exists post. split; [done|]. split; [done|]. split.
    + intros [Heq|Hin]%elem_of_cons; [congruence|done].
    + intros k Hk. cbn [length] in Hk. destruct k as [|k]; [lia|]. cbn [drop].
      destruct k as [|k]; [exact Hs|]. apply Hmin. lia.
Qed.

Lemma lazy_group_none s x post :
  lazy_group_then_close s = None -> s = x ++ s_stars ++ post -> x <> [] -> 10 ∈ x.
Proof.
  revert x. induction s as [|c s IH]; intros x H Hs Hx.
  - by destruct x.
  - destruct x as [|c' x]; [done|]. injection Hs as <- Hs.
    cbn [lazy_group_then_close] in H.
    destruct (N.eqb_spec c 10) as [->|Hc]; [apply list_elem_of_here|].
    apply list_elem_of_further.
    destruct (startswith s_stars s) eqn:Hst; [done|].
    destruct (lazy_group_then_close s) eqn:Hl; [done|].
    destruct x as [|c'' x].
    + rewrite Hs in Hst. change (startswith s_stars (s_stars ++ post) = false) in Hst.
      by rewrite startswith_app in Hst.
    + by apply IH.
Qed.

Lemma bold_match_at_some s g :
  bold_match_at s = Some g ->
  exists post, s = s_stars ++ g ++ s_stars ++ post /\ g <> [] /\ (10 ∉ g)
    /\ forall k, (0 < k < length g)%nat ->
         startswith s_stars (drop k (g ++ s_stars ++ post)) = false.
Proof.
  unfold bold_match_at. destruct (startswith s_stars s) eqn:Hs; [|done].
  apply startswith_spec in Hs as [r ->].
  change (drop 2 (s_stars ++ r)) with r. intros H.
  destruct (lazy_group_some _ _ H) as (post & -> & Hne & Hnl & Hmin).
  by exists post.
Qed.

Lemma bold_match_at_none s : bold_match_at s = None -> ~ span_at s.
Proof.
  unfold bold_match_at. intros H (inner & post & -> & Hne & Hnl).
  rewrite startswith_app in H. change (drop 2 (s_stars ++ ?r)) with r in H.
  apply Hnl. by eapply lazy_group_none.
Qed.

(** The search: the leftmost place with a span. *)
Lemma bold_search_some pos s m :
  bold_search pos s = Some m ->
  exists pre rest,
    s = pre ++ s_stars ++ m_group1 m ++ s_stars ++ rest
    /\ m_start m = (pos + length pre)%nat
    /\ m_end m = (pos + length pre + 2 + length (m_group1 m) + 2)%nat
    /\ m_group1 m <> [] /\ (10 ∉ m_group1 m)
    /\ (forall k, (0 < k < length (m_group1 m))%nat ->
          startswith s_stars (drop k (m_group1 m ++ s_stars ++ rest)) = false)
    /\ (forall p1 p2, pre = p1 ++ p2 -> p2 <> [] ->
          ~ span_at (p2 ++ s_stars ++ m_group1 m ++ s_stars ++ rest)).
Proof.
  revert pos. induction s as [|c s IH]; intros pos H; cbn [bold_search] in H.
  - destruct (bold_match_at []) eqn:Hm; [|done]. by apply bold_match_at_some in Hm as ([|] & ? & _).
  - destruct (bold_match_at (c :: s)) as [g|] eqn:Hm.
    + injection H as <-. cbn [m_start m_end m_group1].
      destruct (bold_match_at_some _ _ Hm) as (post & -> & Hne & Hnl & Hmin).
      exists [], post. cbn [app length]. repeat split; try done; try lia.
      intros p1 p2 Hp. symmetry in Hp. by apply app_eq_nil in Hp as [_ ->].
    + destruct (IH _ H) as (pre & rest & -> & Hst & Hen & Hne & Hnl & Hmin & Hfirst).
      exists (c :: pre), rest. cbn [app length]. repeat split; try done; try lia.
      intros p1 p2 Hp Hp2. destruct p1 as [|c1 p1].
      * cbn [app] in Hp. subst p2. by apply bold_match_at_none.
      * injection Hp as _ ->. exact (Hfirst p1 p2 eq_refl Hp2).
Qed.

Lemma bold_search_none pos s pre s' :
  bold_search pos s = None -> s = pre ++ s' -> ~ span_at s'.
Proof.
  revert pos pre. induction s as [|c s IH]; intros pos pre H Hs; cbn [bold_search] in H.
  - destruct (bold_match_at []) eqn:Hm; [done|].
    symmetry in Hs. apply app_eq_nil in Hs as [_ ->]. by apply bold_match_at_none.
  - destruct (bold_match_at (c :: s)) eqn:Hm; [done|].
    destruct pre as [|c' pre].
    + cbn [app] in Hs. subst s'. by apply bold_match_at_none.
    + injection Hs as _ Hs. by eapply IH.
Qed.

Lemma bold_search_shift pos s :
  bold_search pos s =
    (λ m, {| m_start := (pos + m_start m)%nat; m_end := (pos + m_end m)%nat;
             m_group1 := m_group1 m |}) <$> bold_search 0 s.
Proof.
  revert pos. induction s as [|c s IH]; intros pos; cbn [bold_search].
  - destruct (bold_match_at []); cbn; [|done]. do 2 f_equal; lia.
  - destruct (bold_match_at (c :: s)); cbn.
    + do 2 f_equal; lia.
    + rewrite (IH (S pos)), (IH 1%nat).
      destruct (bold_search 0 s) as [m|]; cbn; [|done]. do 2 f_equal; lia.
Qed.

Lemma spans_source text toks : spans text toks -> concat (source <$> toks) = text.
Proof.
  induction 1 as [text _|pre inner rest toks _ _ _ _ _ IH].
  - cbn. apply app_nil_r.
  - cbn [fmap list_fmap concat source]. rewrite IH. by rewrite <- !app_assoc.
Qed.

(** The matcher of the program cuts the text into the pieces of the
    specification, given fuel for the length of the text. *)
Lemma tokens_of_spans fuel s : (length s < fuel)%nat -> spans s (tokens_of fuel s).
Proof.
  revert s. induction fuel as [|fuel IH]; intros s Hlen; [lia|].
  cbn [tokens_of]. destruct (bold_search 0 s) as [m|] eqn:Hm.
  - destruct (bold_search_some _ _ _ Hm)
      as (pre & rest & Hs & Hst & Hen & Hne & Hnl & Hmin & Hfirst).
    rewrite Hst, Hen. cbn [Nat.add].
    assert (take (length pre) s = pre) as -> by (rewrite Hs; apply take_app_length).
    assert (drop (length pre + 2 + length (m_group1 m) + 2) s = rest) as ->.
    { rewrite Hs. rewrite !app_assoc. apply drop_app_length'.
      rewrite !length_app. change (length s_stars) with 2%nat. lia. }
    rewrite Hs. apply spans_bold; try done. apply IH.
    rewrite Hs in Hlen. rewrite !length_app in Hlen.
    change (length s_stars) with 2%nat in Hlen. lia.
  - apply spans_plain. intros pre s' Hs. by eapply bold_search_none.
Qed.

Lemma render_fold_tokens text fuel pos acc :
  let r := foldl (render_step text) (acc, pos) (finditer_from fuel pos text) in
  concat (r.1 ++ [html_escape (drop r.2 text)])
  = concat acc ++ concat (emit <$> tokens_of fuel (drop pos text)).
Proof.
  revert pos acc. induction fuel as [|fuel IH]; intros pos acc; cbv zeta.
  - cbn [finditer_from foldl tokens_of fst snd fmap list_fmap emit].
    rewrite concat_app. done.
  - cbn [finditer_from tokens_of]. rewrite bold_search_shift.
    destruct (bold_search 0 (drop pos text)) as [m|]; cbn [fmap option_fmap option_map].
    + cbn [foldl].
      change (render_step text (acc, pos) ?mm)
        with (acc ++ [html_escape (slice pos (m_start mm) text); replace_match mm], m_end mm).
      cbn [m_start m_end].
      specialize (IH (pos + m_end m)%nat
        (acc ++ [html_escape (slice pos (pos + m_start m) text);
                 replace_match {| m_start := (pos + m_start m)%nat;
                                  m_end := (pos + m_end m)%nat;
                                  m_group1 := m_group1 m |}])).
      cbv zeta in IH. rewrite IH. rewrite concat_app.
      cbn [fmap list_fmap concat emit]. rewrite drop_drop.
      unfold slice, replace_match. cbn [m_group1].
      replace (pos + m_start m - pos)%nat with (m_start m) by lia.
      rewrite <- !app_assoc. reflexivity.
    + cbn [foldl fst snd fmap list_fmap emit]. by rewrite concat_app.
Qed.

(** The renderer writes the pieces of the text one after the other. *)
Lemma render_inline_tokens text :
  render_inline text = concat (emit <$> tokens_of (S (length text)) text).
Proof.
  unfold render_inline, bold_finditer. cbv zeta.
  pose proof (render_fold_tokens text (S (length text)) 0 []) as H.
  cbv zeta in H. by rewrite H.
Qed.

(** *** Escaping *)

Lemma html_escape_cons c s : html_escape (c :: s) = escape_char c ++ html_escape s.
Proof. done. Qed.

Lemma html_escape_app a b : html_escape (a ++ b) = html_escape a ++ html_escape b.
Proof. apply bind_app. Qed.

Lemma escape_char_plain c : is_special c = false -> escape_char c = [c].
Proof.
  unfold is_special, escape_char. rewrite !orb_false_iff.
  by intros ((((-> & ->) & ->) & ->) & ->).
Qed.

Lemma escape_char_special c :
  is_special c = true ->
  c = 38 /\ escape_char c = s_amp \/ c = 60 /\ escape_char c = s_lt
  \/ c = 62 /\ escape_char c = s_gt \/ c = 34 /\ escape_char c = s_quot
  \/ c = 39 /\ escape_char c = s_apos.
Proof.
  unfold is_special, escape_char.
  destruct (N.eqb_spec c 38) as [->|]; [tauto|].
  destruct (N.eqb_spec c 60) as [->|]; [tauto|].
  destruct (N.eqb_spec c 62) as [->|]; [tauto|].
  destruct (N.eqb_spec c 34) as [->|]; [tauto|].
  destruct (N.eqb_spec c 39) as [->|]; [tauto|]. done.
Qed.

(** Text without the five characters is escaped to itself. *)
Lemma html_escape_plain s :
  Forall (λ c, is_special c = false) s -> html_escape s = s.
Proof.
  induction 1 as [|c s Hc _ IH]; [done|].
  by rewrite html_escape_cons, IH, escape_char_plain.
Qed.

(** Escaped text holds none of the four characters "<", ">", the double
    quote and the apostrophe. *)
Lemma html_escape_no_special s :
  Forall (λ c, c <> 60 /\ c <> 62 /\ c <> 34 /\ c <> 39) (html_escape s).
Proof.
  induction s as [|c s IH]; [constructor|].
  rewrite html_escape_cons. apply Forall_app. split; [|done].
  destruct (is_special c) eqn:Hc.
  - destruct (escape_char_special _ Hc)
      as [[_ ->]|[[_ ->]|[[_ ->]|[[_ ->]|[_ ->]]]]]; repeat constructor; done.
  - rewrite (escape_char_plain _ Hc). repeat constructor;
      intros ->; done.
Qed.

(** Every "&" of escaped text starts an entity. *)
Lemma html_escape_amps s : amps_start_entities (html_escape s) = true.
Proof.
  induction s as [|c s IH]; [done|].
  rewrite html_escape_cons.
  destruct (is_special c) eqn:Hc.
  - destruct (escape_char_special _ Hc)
      as [[_ ->]|[[_ ->]|[[_ ->]|[[_ ->]|[_ ->]]]]]; exact IH.
  - rewrite (escape_char_plain _ Hc). cbn [app amps_start_entities].
    rewrite IH. unfold is_special in Hc. rewrite !orb_false_iff in Hc.
    destruct Hc as ((((-> & _) & _) & _) & _). done.
Qed.

(** Escaped text is escaped once: one decoding of the entities gives the
    text back. *)
Lemma html_unescape_escape s : html_unescape (html_escape s) = s.
Proof.
  unfold html_unescape. induction s as [|c s IH]; [done|].
  rewrite html_escape_cons.
  destruct (is_special c) eqn:Hc.
  - destruct (escape_char_special _ Hc)
      as [[-> ->]|[[-> ->]|[[-> ->]|[[-> ->]|[-> ->]]]]];
      (etransitivity; [|exact (f_equal (cons _) IH)]); reflexivity.
  - rewrite (escape_char_plain _ Hc). cbn [app unescape_from].
    unfold is_special in Hc. rewrite !orb_false_iff in Hc.
    destruct Hc as ((((H38 & _) & _) & _) & _).
    assert (forall e, startswith (38 :: e) (c :: html_escape s) = false) as Hno.
    { intros e. cbn [startswith]. by rewrite N.eqb_sym, H38. }
    unfold s_amp, s_lt, s_gt, s_quot, s_apos. rewrite !Hno. by rewrite IH.
Qed.

(** A text has one list of pieces only. *)
Lemma spans_unique text toks1 toks2 : spans text toks1 -> spans text toks2 -> toks1 = toks2.
Proof.
  intros H1. revert toks2.
  induction H1 as [text Hno|pre inner rest toks Hne Hnl Hmin Hfirst Hrest IH];
    intros toks2 H2.
  - destruct H2 as [text _|pre' inner' rest' toks' Hne' Hnl' _ _ _]; [done|].
    exfalso. apply (Hno pre' _ eq_refl). by exists inner', rest'.
  - remember (pre ++ s_stars ++ inner ++ s_stars ++ rest) as text eqn:Ht.
    destruct H2 as [text Hno|pre' inner' rest' toks' Hne' Hnl' Hmin' Hfirst' Hrest'].
    { exfalso. apply (Hno pre _ Ht). by exists inner, rest. }
    assert (pre' = pre
            /\ s_stars ++ inner' ++ s_stars ++ rest' = s_stars ++ inner ++ s_stars ++ rest)
      as [-> Hx].
    { apply app_eq_inv in Ht as [(k & Hk1 & Hk2)|(k & Hk1 & Hk2)].
      - destruct k as [|c k]; [by rewrite app_nil_r in Hk1|].
        exfalso. apply (Hfirst' pre (c :: k) Hk1 ltac:(done)).
        rewrite <- Hk2. by exists inner, rest.
      - destruct k as [|c k]; [by rewrite app_nil_r in Hk1|].
        exfalso. apply (Hfirst pre' (c :: k) Hk1 ltac:(done)).
        rewrite <- Hk2. by exists inner', rest'. }
    apply app_inv_head in Hx.
    assert (inner' = inner /\ s_stars ++ rest' = s_stars ++ rest) as [-> Hr].
    { apply app_eq_inv in Hx as [(k & Hk1 & Hk2)|(k & Hk1 & Hk2)].
      - destruct k as [|c k]; [by rewrite app_nil_r in Hk1|].
        exfalso. specialize (Hmin' (length inner)).
        rewrite Hk1, <- app_assoc, drop_app_length, <- Hk2, startswith_app in Hmin'.
        assert (length inner <> 0%nat) by by destruct inner.
        rewrite length_app in Hmin'. cbn [length] in Hmin'.
        discriminate Hmin'. lia.
      - destruct k as [|c k]; [by rewrite app_nil_r in Hk1|].
        exfalso. specialize (Hmin (length inner')).
        rewrite Hk1, <- app_assoc, drop_app_length, <- Hk2, startswith_app in Hmin.
        assert (length inner' <> 0%nat) by by destruct inner'.
        rewrite length_app in Hmin. cbn [length] in Hmin.
        discriminate Hmin. lia. }
    apply app_inv_head in Hr as ->. by rewrite (IH _ Hrest').
Qed.

(** C4. The text falls into pieces in one way, spans being taken from left
    to right, each the earliest one and closed by the first stars that can
    close it;
    the renderer writes each plain piece escaped and each span as its escaped
    inner text in one pair of tags, and nothing else.  Escaped text holds no
    "<", ">", double quote or apostrophe, each of its "&" starts an entity,
    one decoding gives the text back, and text without the five characters,
    such as stars that do not form a span, is written as it is. *)
Theorem render_inline_spans (text : list N) :
  (exists toks,
     spans text toks
     /\ (forall toks', spans text toks' -> toks' = toks)
     /\ concat (source <$> toks) = text
     /\ render_inline text = concat (emit <$> toks))
  /\ (forall s,
        Forall (λ c, c <> 60 /\ c <> 62 /\ c <> 34 /\ c <> 39) (html_escape s)
        /\ amps_start_entities (html_escape s) = true
        /\ html_unescape (html_escape s) = s)
  /\ (forall s, Forall (λ c, is_special c = false) s -> html_escape s = s).
Proof.
  split; [|split].
  - exists (tokens_of (S (length text)) text).
    assert (spans text (tokens_of (S (length text)) text)) as H
      by (apply tokens_of_spans; lia).
    split; [done|]. split; [intros toks' H'; by apply (spans_unique text)|].
    split; [by apply spans_source|apply render_inline_tokens].
  - intros s. split; [apply html_escape_no_special|].
    split; [apply html_escape_amps|apply html_unescape_escape].
  - apply html_escape_plain.
Qed.

Lemma render_inline_spans_witness :
  html_escape (lit "2 ** 3 * 4") = lit "2 ** 3 * 4".
Proof.
  apply (render_inline_spans []). vm_compute. repeat constructor.
Defined.

(** ** Dates in the card *)

Lemma day_name_numbers key n : DAY_NAME_TO_ISO !! key = Some n -> (1 <= n <= 7)%Z.
Proof.
  unfold DAY_NAME_TO_ISO. rewrite !lookup_insert_Some, lookup_empty.
  intros H. repeat (destruct H as [[_ <-]|[_ H]]; [lia|]). done.
Qed.

Lemma extract_weekday_range (uni_isalnum : N -> bool) day_label n :
  extract_weekday uni_isalnum day_label = Ok (Some n) -> (1 <= n <= 7)%Z.
Proof.
  unfold extract_weekday. destruct (day_search _ _ _); [|done].
  destruct (DAY_NAME_TO_ISO !! _) eqn:Hk; [|done].
  intros [= <-]. by eapply day_name_numbers.
Qed.

(** X9. Where the resolver does not raise, the card holds a date, once,
    exactly when the day label is not empty, a date map was supplied, the
    resolver finds a weekday in the label and the map holds a date for its
    number; it holds no date otherwise. *)
Theorem date_rendered_iff (uni_isalnum : N -> bool) iso_dates s card :
  render_card uni_isalnum iso_dates s = Ok card ->
  let day_label := (split_day_and_title (raw_title s)).1 in
  let found_and_supplied :=
    day_label <> []
    /\ exists d n dt, iso_dates = Some d
                     /\ extract_weekday uni_isalnum day_label = Ok (Some n)
                     /\ d !! n = Some dt in
  (count_sub s_date_open card = 1%nat /\ found_and_supplied)
  \/ (count_sub s_date_open card = 0%nat /\ ~ found_and_supplied).
Proof.
  intros Hcard day_label found_and_supplied. subst found_and_supplied.
  rewrite render_card_unfold in Hcard. cbv zeta in Hcard. fold day_label in Hcard.
  assert (forall w, count_sub s_date_open
            (card_markup (day_html day_label (lookup_meal_date iso_dates w))
               (split_day_and_title (raw_title s)).2 (convert_lines_to_html (lines s)))
          = (if is_empty day_label then 0
             else match lookup_meal_date iso_dates w with Some _ => 1 | None => 0 end)%nat)
    as Hcount.
  { intros w. rewrite (weight_count _ _ _
      (weight_card _ marker_ok_date _ _ _ _ (weight_day_html _ marker_ok_date _ _)
         (weight_convert _ marker_ok_date _))).
    unfold day_weight.
    destruct (is_empty day_label), (lookup_meal_date iso_dates w); vm_compute; reflexivity. }
  destruct (is_empty day_label) eqn:Hempty.
  - injection Hcard as <-. rewrite Hcount. right. split; [done|].
    intros (Hne & _). by destruct day_label.
  - destruct (extract_weekday uni_isalnum day_label) as [w|] eqn:Hw; [|done].
    injection Hcard as <-. rewrite Hcount. destruct w as [n|].
    + pose proof (extract_weekday_range _ _ _ Hw) as Hn.
      destruct iso_dates as [d|]; cbn [lookup_meal_date].
      * destruct (d !! n) as [dt|] eqn:Hdt.
        -- assert (dict_truthy d = true) as ->.
           { unfold dict_truthy. apply negb_true_iff, bool_decide_eq_false.
             intros ->. by rewrite lookup_empty in Hdt. }
           assert (int_truthy n = true) as ->.
           { unfold int_truthy. apply negb_true_iff, Z.eqb_neq. lia. }
           cbn [andb]. left. split; [done|].
           split; [by destruct day_label|]. by exists d, n, dt.
        -- right. split; [by destruct (dict_truthy d && int_truthy n)|].
           intros (_ & d' & n' & dt & [= <-] & [= <-] & ?). congruence.
      * right. split; [done|]. by intros (_ & ? & ? & ? & ? & _).
    + assert (lookup_meal_date iso_dates None = None) as -> by by destruct iso_dates.
      right. split; [done|]. by intros (_ & ? & ? & ? & _ & ? & _).
Qed.

Lemma date_rendered_iff_witness :
  match render_card (λ _, false) (Some {[ 5%Z := {| year := 2026; month := 2; day := 27 |} ]})
          {| raw_title := lit "Friday - Fish"; lines := [] |} with
  | Ok card => count_sub s_date_open card = 1%nat
  | Raise _ => False
  end.
Proof.
  destruct (render_card (λ _, false) (Some {[ 5%Z := {| year := 2026; month := 2; day := 27 |} ]})
              {| raw_title := lit "Friday - Fish"; lines := [] |}) as [card|e] eqn:E.
  - destruct (date_rendered_iff _ _ _ _ E) as [[H _]|[_ H]]; [exact H|].
    exfalso. apply H. split; [vm_compute; discriminate|].
    eexists _, 5%Z, _. split; [reflexivity|]. split; vm_compute; reflexivity.
  - vm_compute in E. discriminate E.
Defined.

Lemma day_line_iff_label_witness :
  render_card (λ _, false) None {| raw_title := lit "Someday - Stew"; lines := [] |}
  = Ok (card_markup (lit "<p class=`meal-day`><span class=`day-name`>Someday</span></p>")
          (lit "Stew") []).
Proof.
  pose proof (day_line_iff_label (λ _, false) None
                {| raw_title := lit "Someday - Stew"; lines := [] |}) as H.
  cbv zeta in H.
  destruct (render_card (λ _, false) None
              {| raw_title := lit "Someday - Stew"; lines := [] |}) as [card|e] eqn:E.
  - destruct H as (_ & _ & H). rewrite H.
    + vm_compute. reflexivity.
    + vm_compute. discriminate.
    + vm_compute. reflexivity.
  - vm_compute in E. discriminate E.
Defined.

(** ** Weekday Resolver on labels without the odd letters *)

Lemma ci_prefix_spec name s g r :
  ci_prefix name s = Some (g, r) <-> s = g ++ r /\ ci_same name g.
Proof.
  revert s g r. induction name as [|p name IH]; intros s g r; cbn [ci_prefix].
  - split.
    + intros [= <- <-]. split; [done|constructor].
    + intros [-> H]. by inversion H.
  - destruct s as [|c s].
    + split; [done|]. intros [Hs H]. inversion H; subst. done.
    + destruct (ci_eq p c) eqn:Hpc.
      * destruct (ci_prefix name s) as [[g' r']|] eqn:Hrec.
        -- apply IH in Hrec as [-> Hg']. split.
           ++ intros [= <- <-]. split; [done|by constructor].
           ++ intros [Hs H]. inversion H as [|? c' ? g'' ? Hg'']; subst.
              injection Hs as <- Hs.
              assert (length g' = length g'') as Hlen.
              { by rewrite <- (Forall2_length _ _ _ Hg'), <- (Forall2_length _ _ _ Hg''). }
              apply app_inj_1 in Hs as [-> ->]; done.
        -- split; [done|]. intros [Hs H]. inversion H as [|? c' ? g'' ? Hg'']; subst.
           injection Hs as <- Hs.
           assert (ci_prefix name s = Some (g'', r)) as Hc by by apply IH.
           congruence.
      * split; [done|]. intros [Hs H]. inversion H; subst. injection Hs as <- _. congruence.
Qed.

Section ResolverFacts.

Variable uni_isalnum : N -> bool.

Lemma alternatives_some names s g :
  alternatives_then_boundary uni_isalnum names s = Some g ->
  exists name r, name ∈ names /\ s = g ++ r /\ ci_same name g
                 /\ word_boundary uni_isalnum (last g) (head r) = true.
Proof.
  induction names as [|name names IH]; cbn [alternatives_then_boundary]; [done|].
  destruct (ci_prefix name s) as [[g' r']|] eqn:Hp.
  - destruct (word_boundary uni_isalnum (last g') (head r')) eqn:Hb.
    + intros [= <-]. apply ci_prefix_spec in Hp as [-> Hg].
      exists name, r'. split; [apply list_elem_of_here|done].
    + intros H. destruct (IH H) as (n & r & Hn & ?). exists n, r.
      split; [by apply list_elem_of_further|done].
  - intros H. destruct (IH H) as (n & r & Hn & ?). exists n, r.
    split; [by apply list_elem_of_further|done].
Qed.

Lemma alternatives_none names s name g r :
  alternatives_then_boundary uni_isalnum names s = None ->
  name ∈ names -> s = g ++ r -> ci_same name g ->
  word_boundary uni_isalnum (last g) (head r) = false.
Proof.
  induction names as [|name' names IH]; cbn [alternatives_then_boundary];
    intros H Hin Hs Hg; [by apply elem_of_nil in Hin|].
  assert (ci_prefix name s = Some (g, r)) as Hp by by apply ci_prefix_spec.
  apply elem_of_cons in Hin as [<-|Hin].
  - rewrite Hp in H. by destruct (word_boundary _ _ _).
  - destruct (ci_prefix name' s) as [[g' r']|]; [|by apply IH].
    destruct (word_boundary uni_isalnum (last g') (head r')); [done|by apply IH].
Qed.

Lemma day_match_at_some before s g :
  day_match_at uni_isalnum before s = Some g ->
  exists name r, name ∈ day_alternatives /\ s = g ++ r /\ ci_same name g
    /\ word_boundary uni_isalnum before (head s) = true
    /\ word_boundary uni_isalnum (last g) (head r) = true.
Proof.
  unfold day_match_at. destruct (word_boundary uni_isalnum before (head s)) eqn:Hb; [|done].
  intros H. destruct (alternatives_some _ _ _ H) as (name & r & ? & ? & ? & ?).
  by exists name, r.
Qed.

Lemma day_match_at_none before s name g r :
  day_match_at uni_isalnum before s = None ->
  name ∈ day_alternatives -> s = g ++ r -> ci_same name g ->
  word_boundary uni_isalnum before (head s) = true ->
  word_boundary uni_isalnum (last g) (head r) = false.
Proof.
  unfold day_match_at. intros H Hin Hs Hg Hb. rewrite Hb in H.
  by eapply alternatives_none.
Qed.

Lemma char_before_app before p1 p2 :
  char_before before (p1 ++ p2) = char_before (char_before before p1) p2.
Proof.
  unfold char_before. rewrite last_app. destruct (last p2); [done|]. done.
Qed.

Lemma char_before_cons before c pre :
  char_before before (c :: pre) = char_before (Some c) pre.
Proof. unfold char_before. rewrite last_cons. by destruct (last pre). Qed.

(** The search returns the leftmost match. *)
Lemma day_search_spec before s :
  match day_search uni_isalnum before s with
  | Some g =>
    exists pre post,
      s = pre ++ g ++ post
      /\ day_match_at uni_isalnum (char_before before pre) (g ++ post) = Some g
      /\ forall p1 p2, pre = p1 ++ p2 -> p2 <> [] ->
           day_match_at uni_isalnum (char_before before p1) (p2 ++ g ++ post) = None
  | None =>
    forall p1 p2, s = p1 ++ p2 ->
      day_match_at uni_isalnum (char_before before p1) p2 = None
  end.
Proof.
  revert before. induction s as [|c s IH]; intros before; cbn [day_search].
  - destruct (day_match_at uni_isalnum before []) as [g|] eqn:Hm.
    + destruct (day_match_at_some _ _ _ Hm) as (name & r & _ & Hs & _).
      exists [], r. rewrite <- Hs. split; [done|]. split; [done|].
      intros p1 p2 Hp. symmetry in Hp. by apply app_eq_nil in Hp as [_ ->].
    + intros p1 p2 Hp. symmetry in Hp. by apply app_eq_nil in Hp as [-> ->].
  - destruct (day_match_at uni_isalnum before (c :: s)) as [g|] eqn:Hm.
    + destruct (day_match_at_some _ _ _ Hm) as (name & r & _ & Hs & _).
      exists [], r. rewrite <- Hs. split; [done|]. split; [done|].
      intros p1 p2 Hp. symmetry in Hp. by apply app_eq_nil in Hp as [_ ->].
    + specialize (IH (Some c)). destruct (day_search uni_isalnum (Some c) s) as [g|].
      * destruct IH as (pre & post & -> & Hg & Hfirst).
        exists (c :: pre), post. split; [done|]. split.
        -- by rewrite char_before_cons.
        -- intros p1 p2 Hp Hp2. destruct p1 as [|c1 p1].
           ++ cbn [app] in Hp. subst p2. exact Hm.
           ++ injection Hp as <- ->. rewrite char_before_cons. by apply Hfirst.
      * intros p1 p2 Hp. destruct p1 as [|c1 p1].
        -- cbn [app] in Hp. subst p2. exact Hm.
        -- injection Hp as <- ->. rewrite char_before_cons. by apply IH.
Qed.


Lemma char_before_none pre : char_before None pre = last pre.
Proof. unfold char_before. by destruct (last pre). Qed.

(** Where the match holds none of the odd letters, its lower case is the
    lower case of the name. *)
Lemma lower_char_plain p c :
  plain_letter p = true -> ci_eq p c = true -> is_odd_letter c = false ->
  lower_char c = [sre_lower p].
Proof.
  unfold plain_letter, ci_eq, is_odd_letter, lower_char, sre_lower. cbv zeta.
  destruct (N.eqb_spec c 0x212A); destruct (N.eqb_spec p 0x212A); try lia;
  repeat (match goal with
          | |- context [?a <=? ?b] => destruct (N.leb_spec a b)
          | |- context [?a =? ?b] => destruct (N.eqb_spec a b)
          end; try lia; cbn [andb orb negb]; try done);
    intros; f_equal; lia.
Qed.

Lemma str_lower_plain name g :
  Forall (λ p, plain_letter p = true) name -> ci_same name g ->
  Forall (λ c, is_odd_letter c = false) g ->
  str_lower g = sre_lower <$> name.
Proof.
  intros Hname Hg. revert Hname. unfold str_lower.
  induction Hg as [|p c name g Hpc _ IH]; intros Hname Hodd; [done|].
  rewrite bind_cons. cbn [fmap list_fmap].
  rewrite (lower_char_plain p c); [|by inversion Hname|done|by inversion Hodd].
  cbn [app]. f_equal. apply IH; [by inversion Hname|by inversion Hodd].
Qed.

Lemma day_number_lookup name :
  name ∈ day_alternatives ->
  Forall (λ p, plain_letter p = true) name
  /\ exists n, DAY_NAME_TO_ISO !! (sre_lower <$> name) = Some n /\ iso_number name n.
Proof.
  unfold day_alternatives. rewrite !elem_of_cons, elem_of_nil.
  intros [->|[->|[->|[->|[->|[->|[->|[]]]]]]]];
    (split; [repeat constructor|]);
    [exists 1%Z|exists 2%Z|exists 3%Z|exists 4%Z|exists 5%Z|exists 6%Z|exists 7%Z];
    (split; [vm_compute; reflexivity|split; [vm_compute; reflexivity|lia]]).
Qed.

(** X6. On a label that holds none of U+0130, U+0131 and U+017F (any ASCII
    label, for one), the resolver does not raise: it gives the ISO number of
    the leftmost weekday name that stands as a whole word, letter case apart,
    and "not found" when there is none. *)
Theorem weekday_of_plain_label (day_label : list N) :
  Forall (λ c, is_odd_letter c = false) day_label ->
  match extract_weekday uni_isalnum day_label with
  | Ok (Some n) =>
    exists pre g post name,
      day_label = pre ++ g ++ post
      /\ weekday_at uni_isalnum pre g post name /\ iso_number name n
      /\ forall pre' g' post' name',
           day_label = pre' ++ g' ++ post' ->
           weekday_at uni_isalnum pre' g' post' name' ->
           (length pre <= length pre')%nat
  | Ok None =>
    forall pre g post name,
      day_label = pre ++ g ++ post -> ~ weekday_at uni_isalnum pre g post name
  | Raise _ => False
  end.
Proof.
  intros Hplain. unfold extract_weekday.
  pose proof (day_search_spec None day_label) as Hs.
  destruct (day_search uni_isalnum None day_label) as [g|].
  - destruct Hs as (pre & post & Hlabel & Hg & Hfirst).
    rewrite char_before_none in Hg.
    destruct (day_match_at_some _ _ _ Hg) as (name & r & Hname & Hr & Hci & Hb1 & Hb2).
    apply app_inv_head in Hr as <-.
    destruct (day_number_lookup _ Hname) as (Hletters & n & Hn & Hiso).
    rewrite (str_lower_plain name g Hletters Hci), Hn.
    + exists pre, g, post, name. split; [done|]. split; [done|]. split; [done|].
      intros pre' g' post' name' Hlabel' (Hname' & Hci' & Hb1' & Hb2').
      destruct (Nat.le_gt_cases (length pre) (length pre')) as [|Hlt]; [done|].
      exfalso. rewrite Hlabel in Hlabel'.
      apply app_eq_inv in Hlabel' as [(k & Hk1 & Hk2)|(k & Hk1 & Hk2)].
      * specialize (Hfirst pre' k Hk1).
        rewrite char_before_none, <- Hk2 in Hfirst.
        assert (k <> []) as Hk by (intros ->; rewrite app_nil_r in Hk1; subst; lia).
        pose proof (day_match_at_none _ _ _ _ _ (Hfirst Hk) Hname' eq_refl Hci' Hb1').
        congruence.
      * rewrite Hk1, length_app in Hlt. lia.
    + rewrite Hlabel in Hplain. by apply Forall_app in Hplain as [_ [? _]%Forall_app].
  - intros pre g post name Hlabel (Hname & Hci & Hb1 & Hb2).
    specialize (Hs pre (g ++ post) Hlabel). rewrite char_before_none in Hs.
    pose proof (day_match_at_none _ _ _ _ _ Hs Hname eq_refl Hci Hb1). congruence.
Qed.

End ResolverFacts.

Lemma weekday_of_plain_label_witness :
  exists pre g post name,
    lit "next FRIDAY!" = pre ++ g ++ post
    /\ weekday_at (λ _, false) pre g post name /\ iso_number name 5%Z.
Proof.
  pose proof (weekday_of_plain_label (λ _, false) (lit "next FRIDAY!")) as H.
  assert (extract_weekday (λ _, false) (lit "next FRIDAY!") = Ok (Some 5%Z)) as E
    by (vm_compute; reflexivity).
  rewrite E in H. destruct H as (pre & g & post & name & H1 & H2 & H3 & _).
  - vm_compute. repeat constructor.
  - by exists pre, g, post, name.
Defined.

(** * Further properties of the pipeline *)

Lemma is_h2_body_line l : is_h2 l = true -> body_line l = true.
Proof.
  intros H. unfold body_line.
  destruct (is_h1 l) eqn:H1; [by rewrite (is_h1_not_h2 _ H1) in H|].
  destruct (is_rule l) eqn:H3; [|done].
  destruct (is_rule_not_heading _ H3). congruence.
Qed.

Lemma intro_fold st ls :
  intro_lines (foldl parse_step st ls)
  = intro_lines st
    ++ match current_section st with
       | None => filter (λ x, body_line x = true) (until_h2 ls)
       | Some _ => []
       end.
Proof.
  revert st. induction ls as [|l ls IH]; intros st.
  - simpl. destruct (current_section st); by rewrite app_nil_r.
  - cbn [foldl]. rewrite IH. clear IH.
    destruct (is_h1 l) eqn:H1.
    { pose proof (is_h1_not_h2 _ H1) as H2.
      rewrite (parse_step_h1 _ _ H1). cbn [intro_lines current_section until_h2].
      rewrite H2. rewrite filter_cons_False; [done|].
      unfold body_line. rewrite H1. by destruct (is_rule l). }
    destruct (is_h2 l) eqn:H2.
    { unfold parse_step. fold (is_h1 l) (is_h2 l). rewrite H1, H2.
      cbn [intro_lines current_section until_h2]. rewrite H2.
      destruct (current_section st); by rewrite ?app_nil_r. }
    destruct (is_rule l) eqn:H3.
    { unfold parse_step. fold (is_h1 l) (is_h2 l) (is_rule l). rewrite H1, H2, H3.
      cbn [until_h2]. rewrite H2.
      rewrite filter_cons_False; [done|]. unfold body_line. by rewrite H3. }
    unfold parse_step. fold (is_h1 l) (is_h2 l) (is_rule l). rewrite H1, H2, H3.
    cbn [until_h2]. rewrite H2.
    rewrite filter_cons_True by (unfold body_line; by rewrite H1, H3).
    destruct (current_section st) as [[rt lns]|]; simpl.
    + done.
    + by rewrite <- app_assoc.
Qed.

Lemma parse_intro (markdown_text : list N) :
  (parse_weekly_plan markdown_text).1.2
  = filter (λ x, body_line x = true) (until_h2 (splitlines markdown_text)).
Proof. unfold parse_weekly_plan, parse_lines. cbn [fst snd]. by rewrite intro_fold. Qed.

Lemma parse_title (markdown_text : list N) :
  (parse_weekly_plan markdown_text).1.1
  = from_option h1_text [] (head (filter (λ l, is_h1 l = true) (splitlines markdown_text))).
Proof. unfold parse_weekly_plan, parse_lines. cbn [fst snd]. by rewrite fold_title. Qed.

Lemma sections_keeping_lines keep ls :
  filter (λ x, keep x = true) (until_h2 ls) ++ concat (lines <$> sections_keeping keep ls)
  = filter (λ x, (keep x && negb (is_h2 x)) = true) ls.
Proof.
  induction ls as [|l ls IH]; [done|]. cbn [until_h2 sections_keeping].
  destruct (is_h2 l) eqn:H2.
  - cbn [fmap list_fmap concat lines app].
    rewrite filter_cons_False by (rewrite H2, andb_false_r; done). exact IH.
  - destruct (keep l) eqn:Hk.
    + rewrite !filter_cons_True by (rewrite ?Hk, ?H2; done).
      cbn [app]. by rewrite IH.
    + rewrite !filter_cons_False by (rewrite ?Hk; done). exact IH.
Qed.

(** X1. The intro lines are the raw lines in front of the first level-2
    heading, in input order, but for the horizontal rules and the title
    lines; with no level-2 heading they are all such lines of the input. *)
Theorem intro_lines_before_first_heading (markdown_text : list N) :
  (parse_weekly_plan markdown_text).1.2
  = filter (λ l, body_line l = true) (until_h2 (splitlines markdown_text)).
Proof. apply parse_intro. Qed.

(** X2. The parser loses and repeats nothing: the intro lines followed by
    the lines of the sections, in order, are the raw lines of the input that
    are no title line, no level-2 heading and no horizontal rule. *)
Theorem parse_keeps_every_ordinary_line (markdown_text : list N) :
  let parsed := parse_weekly_plan markdown_text in
  parsed.1.2 ++ concat (lines <$> parsed.2)
  = filter (λ l, ordinary_line l = true) (splitlines markdown_text).
Proof.
  cbv zeta. rewrite parse_intro, parse_sections. apply sections_keeping_lines.
Qed.

Lemma join_nil_inv sep p ps : join sep (p :: ps) = [] -> p = [].
Proof. cbn [join]. destruct ps; [done|]. by intros [-> _]%app_eq_nil. Qed.

Lemma convert_nil_iff ls :
  convert_lines_to_html ls = [] <-> Forall (λ l, is_blank l = true) ls.
Proof.
  unfold convert_lines_to_html. split.
  - induction ls as [|l ls IH]; [constructor|].
    rewrite html_parts_cons. destruct (is_blank l) eqn:Hb.
    + intros H. constructor; [done|by apply IH].
    + destruct (is_item l); intros H%join_nil_inv; by destruct l.
  - intros H. rewrite <- (app_nil_r ls). by rewrite html_parts_blanks.
Qed.

Section Frame.
Variable uni_isalnum : N -> bool.

Lemma build_frame markdown_text iso_dates :
  build_html_document uni_isalnum markdown_text iso_dates
  = let ls := splitlines markdown_text in
    let* cards := render_cards uni_isalnum iso_dates (sections_keeping body_line ls) in
    Ok (page_markup (page_title_of ls)
          (intro_block (filter (λ l, body_line l = true) (until_h2 ls)))
          (join s_newline cards)).
Proof.
  unfold build_html_document.
  pose proof (parse_title markdown_text) as Ht.
  pose proof (parse_intro markdown_text) as Hi.
  pose proof (parse_sections markdown_text) as Hs.
  destruct (parse_weekly_plan markdown_text) as [[title intro] secs].
  cbn [fst snd] in Ht, Hi, Hs. cbv zeta. rewrite <- Hs, <- Hi. f_equal.
  assert ((if is_empty title then s_default_title else title)
          = page_title_of (splitlines markdown_text)) as ->.
  { unfold page_title_of. rewrite Ht.
    destruct (head (filter _ _)) as [l|] eqn:Hl; [|done]. cbn [from_option].
    apply head_Some_elem_of, list_elem_of_filter in Hl as [Hl _].
    pose proof (h1_text_nonempty _ Hl). by destruct (h1_text l). }
  assert ((if is_empty match intro with [] => [] | _ :: _ => convert_lines_to_html intro end
           then []
           else s_intro_open ++ match intro with [] => [] | _ :: _ => convert_lines_to_html intro end
                ++ s_div_close) = intro_block intro) as ->; [|done].
  unfold intro_block.
  replace (match intro with [] => [] | _ :: _ => convert_lines_to_html intro end)
    with (convert_lines_to_html intro) by by destruct intro.
  destruct (forallb is_blank intro) eqn:Hb.
  - rewrite forallb_forall in Hb.
    rewrite (proj2 (convert_nil_iff intro)); [done|].
    apply Forall_forall. intros l Hl. apply Hb. by apply list_elem_of_In.
  - destruct (convert_lines_to_html intro) eqn:Hc; [|done].
    apply convert_nil_iff in Hc. rewrite Forall_forall in Hc.
    assert (forallb is_blank intro = true); [|congruence].
    apply forallb_forall. intros l Hl. apply Hc. by apply list_elem_of_In.
Qed.
End Frame.

Lemma Forall_strip (P : N -> Prop) s : Forall P s -> Forall P (strip s).
Proof.
  intros H. destruct (strip_split s) as (pre & post & Hs & _). rewrite Hs in H.
  by apply Forall_app in H as [_ [? _]%Forall_app].
Qed.

Lemma Forall_splitlines_from (P : N -> Prop) n s cur :
  (length s <= n)%nat -> Forall P cur -> Forall P s ->
  Forall (Forall P) (splitlines_from cur s).
Proof.
  revert s cur. induction n as [|n IH]; intros s cur Hn Hcur Hs.
  - destruct s; [|simpl in Hn; lia]. cbn [splitlines_from].
    destruct cur; [constructor|]. repeat constructor. by apply Forall_reverse.
  - destruct s as [|c s]; cbn [splitlines_from].
    + destruct cur; [constructor|]. repeat constructor. by apply Forall_reverse.
    + simpl in Hn. apply Forall_cons in Hs as [Hc Hs]. destruct (is_linebreak c).
      * constructor; [by apply Forall_reverse|].
        destruct s as [|c' s']; [constructor|].
        destruct ((c =? 13) && (c' =? 10)).
        -- apply IH; [simpl in Hn; lia|constructor|by apply Forall_cons in Hs as [_ ?]].
        -- apply IH; [lia|constructor|done].
      * apply IH; [lia|by constructor|done].
Qed.

Lemma Forall_splitlines (P : N -> Prop) s :
  Forall P s -> Forall (Forall P) (splitlines s).
Proof. intros H. by apply (Forall_splitlines_from P (length s)). Qed.

Lemma Forall_split_day (P : N -> Prop) raw :
  Forall P raw ->
  Forall P (split_day_and_title raw).1 /\ Forall P (split_day_and_title raw).2.
Proof.
  intros H. unfold split_day_and_title.
  pose proof (split_with_spec delimiters raw) as Hs.
  destruct (head _) as [d|].
  - destruct Hs as (pre & post & Hraw & _ & ->). rewrite Hraw in H.
    apply Forall_app in H as [Hpre [_ Hpost]%Forall_app].
    split; by apply Forall_strip.
  - rewrite Hs. split; [constructor|by apply Forall_strip].
Qed.

Section Total.
Variable uni_isalnum : N -> bool.

Lemma extract_weekday_plain_ok day_label :
  Forall (λ c, is_odd_letter c = false) day_label ->
  exists r, extract_weekday uni_isalnum day_label = Ok r.
Proof.
  intros Hplain. unfold extract_weekday.
  pose proof (day_search_spec uni_isalnum None day_label) as Hs.
  destruct (day_search uni_isalnum None day_label) as [g|]; [|by eexists].
  destruct Hs as (pre & post & Hlabel & Hg & _).
  destruct (day_match_at_some _ _ _ _ Hg) as (name & r & Hname & _ & Hci & _).
  destruct (day_number_lookup _ Hname) as (Hletters & n & Hn & _).
  rewrite (str_lower_plain name g Hletters Hci), Hn; [by eexists|].
  rewrite Hlabel in Hplain. by apply Forall_app in Hplain as [_ [? _]%Forall_app].
Qed.

Lemma render_card_plain_ok iso_dates s :
  Forall (λ c, is_odd_letter c = false) (raw_title s) ->
  exists card, render_card uni_isalnum iso_dates s = Ok card.
Proof.
  intros H. rewrite render_card_unfold. cbv zeta.
  destruct (is_empty _); [by eexists|].
  destruct (extract_weekday_plain_ok (split_day_and_title (raw_title s)).1) as [r ->];
    [by apply Forall_split_day|by eexists].
Qed.

(** X12. A text that holds none of U+0130, U+0131 and U+017F (any ASCII
    text, for one) is always converted: the resolver raises on no heading of
    it, whatever date map is supplied. *)
Theorem plain_text_always_converts (markdown_text : list N) (iso_dates : option (gmap Z date)) :
  Forall (λ c, is_odd_letter c = false) markdown_text ->
  exists html, build_html_document uni_isalnum markdown_text iso_dates = Ok html.
Proof.
  intros Hplain. rewrite build_frame. cbv zeta.
  pose proof (render_cards_spec uni_isalnum iso_dates
                (sections_keeping body_line (splitlines markdown_text))) as Hcards.
  destruct (render_cards _ _ _) as [cards|e]; [by eexists|]. exfalso.
  destruct Hcards as (s & Hin & Hs).
  destruct (render_card_plain_ok iso_dates s) as [card Hcard]; [|congruence].
  assert (raw_title s ∈ h2_text <$> filter (λ l, is_h2 l = true) (splitlines markdown_text))
    as Hh.
  { rewrite <- (sections_keeping_titles body_line). exact (list_elem_of_fmap_2 raw_title _ _ Hin). }
  apply list_elem_of_fmap in Hh as (h & -> & Hh). apply list_elem_of_filter in Hh as [_ Hh].
  pose proof (Forall_splitlines _ _ Hplain) as Hlines. rewrite Forall_forall in Hlines.
  unfold h2_text. apply Forall_strip, Forall_drop, Forall_strip. by apply Hlines.
Qed.
End Total.

Lemma html_parts_nil_iff ls : html_parts ls = [] <-> Forall (λ l, is_blank l = true) ls.
Proof.
  split.
  - induction ls as [|l ls IH]; [constructor|].
    rewrite html_parts_cons. destruct (is_blank l) eqn:Hb.
    + intros H. constructor; [done|by apply IH].
    + by destruct (is_item l).
  - intros H. rewrite <- (app_nil_r ls). by rewrite html_parts_blanks.
Qed.

Lemma join_app sep (a b : list (list N)) :
  a <> [] -> b <> [] -> join sep (a ++ b) = join sep a ++ sep ++ join sep b.
Proof.
  intros Ha Hb. induction a as [|x a IH]; [done|].
  destruct a as [|y a].
  - destruct b; [done|]. done.
  - change (join sep ((x :: y :: a) ++ b)) with (x ++ sep ++ join sep ((y :: a) ++ b)).
    rewrite IH by done. change (join sep (x :: y :: a)) with (x ++ sep ++ join sep (y :: a)).
    by rewrite <- !app_assoc.
Qed.

Lemma forallb_blank ls :
  forallb is_blank ls = true <-> Forall (λ l, is_blank l = true) ls.
Proof.
  rewrite forallb_forall, Forall_forall. split; intros H l Hl; apply H; by apply list_elem_of_In.
Qed.

(** X5. The block converter works block by block: where the cut between
    [xs] and [ys] does not fall between two list lines, the lines [xs ++ ys]
    give the markup of [xs], a newline and the markup of [ys]; a side whose
    lines are all blank gives nothing, and no newline. *)
Theorem convert_cut_between_blocks (xs ys : list (list N)) :
  from_option is_item false (last xs) && from_option is_item false (head ys) = false ->
  convert_lines_to_html (xs ++ ys)
  = if forallb is_blank xs then convert_lines_to_html ys
    else if forallb is_blank ys then convert_lines_to_html xs
    else convert_lines_to_html xs ++ s_newline ++ convert_lines_to_html ys.
Proof.
  intros Hcut. unfold convert_lines_to_html.
  rewrite (html_parts_app xs ys) by done.
  destruct (forallb is_blank xs) eqn:Hx.
  - apply forallb_blank, html_parts_nil_iff in Hx. by rewrite Hx.
  - destruct (forallb is_blank ys) eqn:Hy.
    + apply forallb_blank, html_parts_nil_iff in Hy. by rewrite Hy, app_nil_r.
    + apply join_app.
      * intros H%html_parts_nil_iff%forallb_blank. congruence.
      * intros H%html_parts_nil_iff%forallb_blank. congruence.
Qed.

Lemma digits_from_plain fuel n acc :
  Forall (λ c, is_special c = false) acc ->
  Forall (λ c, is_special c = false) (digits_from fuel n acc).
Proof.
  revert n acc. induction fuel as [|fuel IH]; intros n acc Hacc; [done|].
  cbn [digits_from].
  assert (is_special (48 + n mod 10) = false) as Hd.
  { pose proof (N.mod_upper_bound n 10 ltac:(done)) as Hx. unfold is_special.
    generalize dependent (n mod 10). intros x Hx.
    repeat (apply orb_false_intro); apply N.eqb_neq; lia. }
  destruct (n <? 10); [by constructor|]. apply IH. by constructor.
Qed.

Lemma str_of_int_plain z : Forall (λ c, is_special c = false) (str_of_int z).
Proof.
  unfold str_of_int. cbv zeta. apply Forall_app. split.
  - destruct (z <? 0)%Z; by repeat constructor.
  - apply digits_from_plain. constructor.
Qed.

Lemma strftime_b_plain value : Forall (λ c, is_special c = false) (strftime_b value).
Proof.
  unfold strftime_b. destruct (month_abbr !! _) as [m|] eqn:Hm; [|constructor].
  apply list_elem_of_lookup_2 in Hm. revert m Hm. apply Forall_forall.
  unfold month_abbr. repeat constructor.
Qed.

Lemma format_display_date_plain value :
  Forall (λ c, is_special c = false) (format_display_date value).
Proof.
  unfold format_display_date.
  apply Forall_app; split; [apply strftime_b_plain|].
  apply Forall_app; split; [by repeat constructor|].
  apply Forall_app; split; [apply str_of_int_plain|].
  apply Forall_app; split; [by repeat constructor|apply str_of_int_plain].
Qed.

(** X8. A formatted date holds no character that [html.escape] replaces:
    the date is written into the card as [format_display_date] gives it,
    month name, day, comma and year. *)
Theorem display_date_written_as_formatted (value : date) :
  html_escape (format_display_date value) = format_display_date value
  /\ date_html (Some value) = s_date_open ++ format_display_date value ++ s_span_close.
Proof.
  assert (html_escape (format_display_date value) = format_display_date value) as H
    by apply html_escape_plain, format_display_date_plain.
  split; [done|]. unfold date_html. by rewrite H.
Qed.

Lemma weight_intro_block pat intro :
  marker_ok pat = true -> weight pat 0 (intro_block intro).
Proof.
  intros Hpat. unfold intro_block. destruct (forallb is_blank intro); [apply weight_nil|].
  apply weight_app0; [plain_by Hpat|]. apply weight_app0; [by apply weight_convert|plain_by Hpat].
Qed.

Lemma plain_or_odd (s : list N) :
  Forall (λ c, is_odd_letter c = false) s \/ Exists (λ c, is_odd_letter c = true) s.
Proof.
  induction s as [|c s [IH|IH]]; [by left| |right; by constructor].
  destruct (is_odd_letter c) eqn:Hc; [right|left]; by constructor.
Qed.

Section Dates.
Variable uni_isalnum : N -> bool.

Lemma main_no_week markdown_text :
  main uni_isalnum markdown_text None None
  = build_html_document uni_isalnum markdown_text None.
Proof. done. Qed.

(** X14. Run without the two week options, [main] writes a document with
    no date in it: the opening tag of the date occurs nowhere, whatever the
    text holds. *)
Theorem no_week_no_dates (markdown_text html : list N) :
  main uni_isalnum markdown_text None None = Ok html ->
  count_sub s_date_open html = 0%nat.
Proof.
  rewrite main_no_week, build_frame. cbv zeta.
  pose proof (render_cards_spec uni_isalnum None
                (sections_keeping body_line (splitlines markdown_text))) as Hcards.
  destruct (render_cards _ _ _) as [cards|e]; [|done]. cbn [rbind]. intros [= <-].
  rewrite (weight_count _ 0); [by rewrite count_sub_nil|].
  apply weight_page; [apply marker_ok_date|apply weight_intro_block, marker_ok_date|].
  apply weight_join0; [plain_by marker_ok_date|].
  apply Forall_forall. intros card Hcard.
  apply list_elem_of_lookup in Hcard as [i Hi].
  destruct (Forall2_lookup_r _ _ _ _ _ Hcards Hi) as (s & _ & Hs).
  rewrite render_card_unfold in Hs. cbv zeta in Hs.
  destruct (if is_empty _ then _ else _) as [w|]; [|done]. injection Hs as <-.
  replace 0%nat with (tag_weight s_date_open card_section_open
                      + day_weight s_date_open (split_day_and_title (raw_title s)).1 None)%nat.
  - apply weight_card; [apply marker_ok_date| |apply weight_convert, marker_ok_date].
    destruct w; apply weight_day_html, marker_ok_date.
  - unfold day_weight. by destruct (is_empty _).
Qed.

(** X13. With the date map [main] builds for a week, the card of a heading
    whose day label names a weekday shows, behind the escaped label, the date
    of that weekday in that ISO week: neither the test of the map nor the
    test of the weekday number for truth drops it. *)
Theorem week_date_beside_weekday (yr week n : Z) (d : gmap Z date) (s : section) :
  main_iso_dates (Some week) (Some yr) = Ok (Some d) ->
  (split_day_and_title (raw_title s)).1 <> [] ->
  extract_weekday uni_isalnum (split_day_and_title (raw_title s)).1 = Ok (Some n) ->
  let shown := date_of_ordinal (iso_ordinal yr week n) in
  render_card uni_isalnum (Some d) s
  = Ok (card_markup
          (s_day_open
           ++ (s_name_open ++ html_escape (split_day_and_title (raw_title s)).1 ++ s_span_close)
           ++ (s_date_open ++ format_display_date shown ++ s_span_close)
           ++ s_p_close)
          (split_day_and_title (raw_title s)).2
          (convert_lines_to_html (lines s)))
  /\ toordinal shown = iso_ordinal yr week n
  /\ isoweekday_of_ordinal (toordinal shown) = n.
Proof.
  intros Hd Hlabel Hn shown.
  pose proof (extract_weekday_range _ _ _ Hn) as Hrange.
  destruct (main_iso_dates_spec yr week) as [(d' & Hd' & Hin & _)|(Hr & _)]; [|congruence].
  assert (d' = d) as -> by congruence.
  assert (lookup_meal_date (Some d) (Some n) = Some shown) as Hlookup.
  { unfold lookup_meal_date, dict_truthy, int_truthy.
    destruct (Hin n Hrange) as [_ Hdn]. destruct (Hin 1%Z ltac:(lia)) as [_ Hd1].
    rewrite bool_decide_eq_false_2 by (intros ->; by rewrite lookup_empty in Hd1).
    destruct (Z.eqb_spec n 0); [lia|]. done. }
  split; [|split].
  - rewrite render_card_unfold. cbv zeta.
    destruct (is_empty _) eqn:He; [by destruct (split_day_and_title _).1|].
    rewrite Hn, Hlookup. unfold day_html, day_name_html, date_html. rewrite He.
    by rewrite (html_escape_plain _ (format_display_date_plain shown)).
  - apply toordinal_date_of_ordinal.
  - unfold shown. rewrite toordinal_date_of_ordinal. by apply isoweekday_of_iso_ordinal.
Qed.

(** X15. The three ways through [main]: one of the two week options
    without the other is the usage error, whatever the text and the value of
    the option; both options give the invalid ISO week/year error or the
    document built with a date for each of the weekdays 1 to 7 and no other
    key; neither gives the document built without dates. *)
Theorem main_outcomes (markdown_text : list N) (iso_week yr : option Z) :
  match iso_week, yr with
  | None, None =>
    main uni_isalnum markdown_text iso_week yr
    = build_html_document uni_isalnum markdown_text None
  | Some week, Some y =>
    (main_iso_dates iso_week yr = Raise SystemExit_invalid_iso
     /\ main uni_isalnum markdown_text iso_week yr = Raise SystemExit_invalid_iso)
    \/ (exists d,
          main_iso_dates iso_week yr = Ok (Some d)
          /\ (forall wd, is_Some (d !! wd) <-> (1 <= wd <= 7)%Z)
          /\ main uni_isalnum markdown_text iso_week yr
             = build_html_document uni_isalnum markdown_text (Some d))
  | _, _ => main uni_isalnum markdown_text iso_week yr = Raise SystemExit_usage
  end.
Proof.
  destruct iso_week as [week|], yr as [y|]; [|done..].
  unfold main. rewrite parse_args_both. cbn [rbind].
  destruct (main_iso_dates_spec y week) as [(d & Hd & Hin & Hout)|(Hr & _)].
  - right. exists d. split; [done|]. split; [|by rewrite Hd].
    intros wd. destruct (decide (1 <= wd <= 7)%Z) as [Hwd|Hwd].
    + destruct (Hin wd Hwd) as [_ ->]. split; [done|by eexists].
    + rewrite (Hout wd Hwd). split; [by intros [? ?]|done].
  - left. by rewrite Hr.
Qed.

(** X7. Whatever the label, the resolver gives "not found", or a number
    from 1 to 7, or raises [KeyError] for a key the table does not hold; and
    it raises only on a label that holds one of U+0130, U+0131 and U+017F. *)
Theorem extract_weekday_outcomes (day_label : list N) :
  match extract_weekday uni_isalnum day_label with
  | Ok None => True
  | Ok (Some n) => (1 <= n <= 7)%Z
  | Raise e =>
    exists key, e = KeyError key /\ DAY_NAME_TO_ISO !! key = None
                /\ Exists (λ c, is_odd_letter c = true) day_label
  end.
Proof.
  destruct (extract_weekday uni_isalnum day_label) as [[n|]|e] eqn:H; [|done|].
  - by eapply extract_weekday_range.
  - assert (Exists (λ c, is_odd_letter c = true) day_label) as Hodd.
    { destruct (plain_or_odd day_label) as [Hall|Hex]; [|done].
      destruct (extract_weekday_plain_ok uni_isalnum _ Hall). congruence. }
    unfold extract_weekday in H. destruct (day_search _ _ _) as [g|]; [|done].
    destruct (DAY_NAME_TO_ISO !! str_lower g) eqn:Hk; [done|].
    injection H as <-. by exists (str_lower g).
Qed.
End Dates.

(** X3. The heading splitter as the program has it: the first delimiter of
    its list that occurs in the title is used, the title is cut at the first
    place this delimiter occurs, and both parts are trimmed; with none of the
    delimiters in it the day label is empty and the meal title is the title
    trimmed.  Either way the two results are trimmed. *)
Theorem split_at_first_listed_delimiter (raw_title : list N) :
  (match head (filter (λ d, str_in d raw_title = true) delimiters) with
   | Some d =>
     exists pre post,
       raw_title = pre ++ d ++ post
       /\ (forall k, (k < length pre)%nat -> startswith d (drop k raw_title) = false)
       /\ split_day_and_title raw_title = (strip pre, strip post)
   | None => split_day_and_title raw_title = ([], strip raw_title)
   end)
  /\ strip (split_day_and_title raw_title).1 = (split_day_and_title raw_title).1
  /\ strip (split_day_and_title raw_title).2 = (split_day_and_title raw_title).2.
Proof.
  pose proof (split_with_spec delimiters raw_title) as H. fold (split_day_and_title raw_title) in H.
  split; [exact H|].
  destruct (head _) as [d|].
  - destruct H as (pre & post & _ & _ & ->). cbn [fst snd]. by rewrite !strip_idemp.
  - rewrite H. cbn [fst snd]. split; [done|apply strip_idemp].
Qed.

(** X4. The block converter gives the empty string exactly when every line
    is blank (when there is no line, for one). *)
Theorem convert_nothing_iff_blank (ls : list (list N)) :
  convert_lines_to_html ls = [] <-> Forall (λ l, is_blank l = true) ls.
Proof. apply convert_nil_iff. Qed.

(** X10. The title of the page is the text of the first title line, and
    "Weekly Meal Plan" exactly when no line is a title line (the text of a
    title line is never empty); it is written, escaped, at the two places of
    the page template. *)
Theorem page_title_first_or_default (uni_isalnum : N -> bool) (markdown_text : list N)
    (iso_dates : option (gmap Z date)) (html : list N) :
  build_html_document uni_isalnum markdown_text iso_dates = Ok html ->
  exists intro_section cards_markup,
    html = page_markup
             (match head (filter (λ l, is_h1 l = true) (splitlines markdown_text)) with
              | Some l => h1_text l
              | None => s_default_title
              end)
             intro_section cards_markup.
Proof.
  rewrite build_frame. cbv zeta. destruct (render_cards _ _ _) as [cards|]; [|done].
  intros [= <-]. by eexists _, _.
Qed.

Lemma page_title_first_or_default_witness :
  exists html intro_section cards_markup,
    build_html_document (λ _, false) (lit "intro
## Monday - Pizza") None = Ok html
    /\ html = page_markup (lit "Weekly Meal Plan") intro_section cards_markup.
Proof.
  destruct (build_html_document (λ _, false) (lit "intro
## Monday - Pizza") None) as [html|e] eqn:E.
  - destruct (page_title_first_or_default _ _ _ _ E) as (intro_section & cards_markup & H).
    by exists html, intro_section, cards_markup.
  - vm_compute in E. discriminate E.
Defined.

(** X11. The intro block is left out of the page exactly when every intro
    line (the lines in front of the first level-2 heading, but for rules and
    title lines) is blank; otherwise it is the markup of the intro lines in
    its [div]. *)
Theorem intro_block_iff_nonblank (uni_isalnum : N -> bool) (markdown_text : list N)
    (iso_dates : option (gmap Z date)) (html : list N) :
  build_html_document uni_isalnum markdown_text iso_dates = Ok html ->
  let intro := filter (λ l, body_line l = true) (until_h2 (splitlines markdown_text)) in
  exists page_title cards_markup,
    html = page_markup page_title
             (if forallb is_blank intro then []
              else s_intro_open ++ convert_lines_to_html intro ++ s_div_close)
             cards_markup.
Proof.
  rewrite build_frame. cbv zeta. destruct (render_cards _ _ _) as [cards|]; [|done].
  intros [= <-]. by eexists _, _.
Qed.

Lemma intro_block_iff_nonblank_witness :
  exists html page_title cards_markup,
    build_html_document (λ _, false) (lit "  
---
## Monday - Pizza") None = Ok html
    /\ html = page_markup page_title [] cards_markup.
Proof.
  destruct (build_html_document (λ _, false) (lit "  
---
## Monday - Pizza") None) as [html|e] eqn:E.
  - destruct (intro_block_iff_nonblank _ _ _ _ E) as (page_title & cards_markup & H).
    by exists html, page_title, cards_markup.
  - vm_compute in E. discriminate E.
Defined.

Lemma convert_cut_between_blocks_witness :
  convert_lines_to_html ([lit "- a"; lit "- b"] ++ [lit "text"])
  = lit "<ul><li>a</li><li>b</li></ul>
<p>text</p>".
Proof.
  refine (eq_trans (convert_cut_between_blocks [lit "- a"; lit "- b"] [lit "text"] _) _).
  - vm_compute. reflexivity.
  - vm_compute. reflexivity.
Defined.

Lemma plain_text_always_converts_witness :
  exists html,
    build_html_document (λ _, false) (lit "# Plan
## Friday - Fish
- cod") None = Ok html.
Proof.
  apply plain_text_always_converts. vm_compute. repeat constructor.
Defined.

Lemma no_week_no_dates_witness :
  match main (λ _, false) (lit "## Friday - Fish <span class=`meal-date`>") None None with
  | Ok html => count_sub s_date_open html = 0%nat
  | Raise _ => False
  end.
Proof.
  destruct (main (λ _, false) (lit "## Friday - Fish <span class=`meal-date`>") None None)
    as [html|e] eqn:E.
  - exact (no_week_no_dates _ _ _ E).
  - vm_compute in E. discriminate E.
Defined.

Lemma week_date_beside_weekday_witness :
  match main_iso_dates (Some 9%Z) (Some 2026%Z) with
  | Ok (Some d) =>
    render_card (λ _, false) (Some d) {| raw_title := lit "Monday - Pizza"; lines := [] |}
    = Ok (card_markup
            (lit "<p class=`meal-day`><span class=`day-name`>Monday</span><span class=`meal-date`>Feb 23, 2026</span></p>")
            (lit "Pizza") [])
  | _ => False
  end.
Proof.
  destruct (main_iso_dates (Some 9%Z) (Some 2026%Z)) as [[d|]|e] eqn:E.
  - refine (eq_trans (proj1 (week_date_beside_weekday (λ _, false) 2026 9 1 d
             {| raw_title := lit "Monday - Pizza"; lines := [] |} E _ _)) _).
    + vm_compute. discriminate.
    + vm_compute. reflexivity.
    + vm_compute. reflexivity.
  - vm_compute in E. discriminate E.
  - vm_compute in E. discriminate E.
Defined.
